(** * notes4u: the client-side note synchronisation and authorisation logic

    A shallow embedding of the handlers of
    - [src/app/notes/page.tsx]            (the list view, [NotesPage]),
    - [src/app/notes/[id]/page.tsx]       (the single-note view, [SingleNotePage]),
    - [src/components/notes/NoteForm.tsx] (the form component, [NoteForm]),
    together with the row-level-security policies and column defaults of
    [src/supabase/migrations/*.sql] (module [Supabase]).

    React state is a record, a handler is a function from the state to the
    new state together with the trace of requests it sent and of the routes
    it pushed.  The answers of the backend are an input of the handlers. *)

From Stdlib Require Import List String Ascii Bool Arith Lia.
Import ListNotations.
Open Scope string_scope.
Open Scope list_scope.
Open Scope nat_scope.

(** ** JavaScript built-ins used by the handlers

    A JavaScript string is a sequence of UTF-16 code units.  The model keeps
    the code units [0..255] (one [ascii] each), on which [trim] and
    [toLowerCase] are the functions below; the literals of the source are all
    in that range. *)
Module JS.

(** [WhiteSpace] and [LineTerminator] code units below 256: TAB, LF, VT, FF,
    CR, SP and NBSP. *)
Definition isWhiteSpace (c : ascii) : bool :=
  let n := nat_of_ascii c in
  (n =? 9) || (n =? 10) || (n =? 11) || (n =? 12) || (n =? 13)
  || (n =? 32) || (n =? 160).

Fixpoint trimStart (s : string) : string :=
  match s with
  | EmptyString => EmptyString
  | String c s' => if isWhiteSpace c then trimStart s' else s
  end.

Fixpoint trimEnd (s : string) : string :=
  match s with
  | EmptyString => EmptyString
  | String c s' =>
      match trimEnd s' with
      | EmptyString => if isWhiteSpace c then EmptyString else String c EmptyString
      | t => String c t
      end
  end.

(** [String.prototype.trim] *)
Definition trim (s : string) : string := trimEnd (trimStart s).

(** Lower-case mapping of one code unit: [A-Z], and the Latin-1 capitals
    [U+00C0..U+00DE] except the multiplication sign [U+00D7]. *)
Definition lowerChar (c : ascii) : ascii :=
  let n := nat_of_ascii c in
  if ((65 <=? n) && (n <=? 90))
     || ((192 <=? n) && (n <=? 222) && negb (n =? 215))
  then ascii_of_nat (n + 32) else c.

(** [String.prototype.toLowerCase] *)
Fixpoint toLowerCase (s : string) : string :=
  match s with
  | EmptyString => EmptyString
  | String c s' => String (lowerChar c) (toLowerCase s')
  end.

(** Truthiness of a string: every string but the empty one. *)
Definition truthy (s : string) : bool :=
  match s with
  | EmptyString => false
  | String _ _ => true
  end.

(** [Array.prototype.includes] on an array of strings. *)
Definition includes (l : list string) (x : string) : bool :=
  existsb (String.eqb x) l.

(** [a || b] where [a] may be [null] or [undefined]. *)
Definition orDefault {A : Type} (a : option A) (b : A) : A :=
  match a with
  | Some x => x
  | None => b
  end.

End JS.

(** ** Rows of the [notes] table

    The columns of [CREATE TABLE notes] and of the migration that adds
    [is_public] and [tags]; the two added columns are nullable, and optional
    in the [Note] type of the list view. *)
Record Note : Type := mkNote {
  id : string;
  user_id : string;
  title : string;
  content : string;
  created_at : string;
  is_public : option bool;
  tags : option (list string)
}.

(** ** Requests, replies and the handler monad *)

(** A JavaScript object literal sent as the body of a request: its keys in
    the order they are written.  A key whose value is [undefined] is not
    serialised, hence [field_opt]. *)
Inductive Value : Type :=
| VString (s : string)
| VBool (b : bool)
| VStrings (l : list string).

Definition Obj : Type := list (string * Value).

Definition field_opt (key : string) (v : option Value) : Obj :=
  match v with
  | Some x => [(key, x)]
  | None => []
  end.

Fixpoint lookup (key : string) (o : Obj) : option Value :=
  match o with
  | [] => None
  | (k, v) :: o' => if String.eqb k key then Some v else lookup key o'
  end.

(** The object the [NoteForm] component hands to its [onSubmit] property:
    [{ title; content; id?; is_public?; tags? }]. *)
Module NoteData.
Record t : Type := mk {
  title : string;
  content : string;
  id : option string;
  is_public : option bool;
  tags : option (list string)
}.
End NoteData.

Record Profile : Type := mkProfile {
  full_name : option string;
  avatar_url : option string
}.

(** The queries the pages build with the supabase client, one constructor
    per shape of call chain. *)
Inductive Request : Type :=
| SelectOwned (eq_user_id : string)
    (* from("notes").select("*").eq("user_id", _).order("created_at", desc) *)
| SelectById (eq_id : string)
    (* from("notes").select("*").eq("id", _).single() *)
| SelectProfile (eq_id : string)
    (* from("profiles").select("full_name, avatar_url").eq("id", _).single() *)
| Insert (body : Obj)
    (* from("notes").insert([body]) *)
| InsertReturning (body : Obj)
    (* from("notes").insert([body]).select().single() *)
| Update (body : Obj) (eq_id eq_user_id : string)
    (* from("notes").update(body).eq("id", _).eq("user_id", _) *)
| Delete (eq_id eq_user_id : string).
    (* from("notes").delete().eq("id", _).eq("user_id", _) *)

Record PostgrestError : Type := mkError {
  code : string;
  message : string
}.

Inductive Data : Type :=
| Null
| NoteRow (n : Note)
| NoteRows (l : list Note)
| ProfileRow (p : Profile).

(** The [{ data, error }] pair a query resolves to. *)
Module Reply.
Record t : Type := mk {
  data : Data;
  error : option PostgrestError
}.
End Reply.

(** What a handler reads from outside the component: the session of
    [supabase.auth.getSession()] (kept by the user's id), the backend's
    answer to a request, the clock ([new Date().toISOString()]), the user's
    answer to the [confirm] dialog, and the message of the [TypeError]
    raised by reading a property of [null]. *)
Record World : Type := mkWorld {
  session : option string;
  respond : Request -> Reply.t;
  now : string;
  confirmed : bool;
  nullDeref : string
}.

(** What a handler does to the outside: requests sent over the network and
    routes pushed on the router, in order. *)
Inductive Effect : Type :=
| Sent (r : Request)
| Pushed (route : string).

Definition Handler (S A : Type) : Type := S -> A * S * list Effect.

Definition ret {S A : Type} (a : A) : Handler S A :=
  fun st => (a, st, []).

Definition bind {S A B : Type} (m : Handler S A) (k : A -> Handler S B) : Handler S B :=
  fun st =>
    let '(a, st1, out1) := m st in
    let '(b, st2, out2) := k a st1 in
    (b, st2, out1 ++ out2).

Definition get {S : Type} : Handler S S :=
  fun st => (st, st, []).

Definition modify {S : Type} (f : S -> S) : Handler S unit :=
  fun st => (tt, f st, []).

Definition send {S : Type} (w : World) (r : Request) : Handler S Reply.t :=
  fun st => (respond w r, st, [Sent r]).

Definition push {S : Type} (route : string) : Handler S unit :=
  fun st => (tt, st, [Pushed route]).

Declare Scope handler_scope.
Delimit Scope handler_scope with handler.
Notation "x <- m ;; k" := (bind m (fun x => k))
  (at level 100, m at next level, right associativity) : handler_scope.
Notation "m ;; k" := (bind m (fun _ => k))
  (at level 100, right associativity) : handler_scope.

(** The state a handler leaves and the effects it had. *)
Definition stateAfter {S A : Type} (m : Handler S A) (st : S) : S :=
  snd (fst (m st)).

Definition effectsOf {S A : Type} (m : Handler S A) (st : S) : list Effect :=
  snd (m st).

(** The network requests among the effects. *)
Fixpoint requestsOf (out : list Effect) : list Request :=
  match out with
  | [] => []
  | Sent r :: out' => r :: requestsOf out'
  | Pushed _ :: out' => requestsOf out'
  end.

(** ** The list view: [src/app/notes/page.tsx] *)
Module NotesPage.

(** The payload of a [postgres_changes] notification: [eventType] with
    [payload.new] (a row) or [payload.old] (the primary key of the row). *)
Inductive Payload : Type :=
| INSERT (new : Note)
| UPDATE (new : Note)
| DELETE (old_id : string).

(** The callback of the realtime subscription (lines 83-97), as the function
    it applies to the [notes] state through [setNotes]. *)
Definition applyRemoteEvent (payload : Payload) (prev : list Note) : list Note :=
  match payload with
  | INSERT new => new :: prev
  | UPDATE new =>
      map (fun note => if (id note =? id new)%string then new else note) prev
  | DELETE old_id =>
      filter (fun note => negb (id note =? old_id)%string) prev
  end.

(** The events of the feed are handled one at a time, in arrival order. *)
Definition applyRemoteEvents (events : list Payload) (prev : list Note) : list Note :=
  fold_left (fun notes payload => applyRemoteEvent payload notes) events prev.

(** The component state: one field per [useState].  [user] is the session
    user, kept by its [id]. *)
Record State : Type := mkState {
  user : option string;
  notes : list Note;
  editingNote : option Note;
  isFormOpen : bool;
  isLoading : bool;
  error : option string
}.

Definition setUser (v : option string) : Handler State unit :=
  modify (fun st => mkState v (notes st) (editingNote st)
                            (isFormOpen st) (isLoading st) (error st)).

Definition setNotes (f : list Note -> list Note) : Handler State unit :=
  modify (fun st => mkState (user st) (f (notes st)) (editingNote st)
                            (isFormOpen st) (isLoading st) (error st)).

Definition setEditingNote (v : option Note) : Handler State unit :=
  modify (fun st => mkState (user st) (notes st) v
                            (isFormOpen st) (isLoading st) (error st)).

Definition setIsFormOpen (v : bool) : Handler State unit :=
  modify (fun st => mkState (user st) (notes st) (editingNote st)
                            v (isLoading st) (error st)).

Definition setIsLoading (v : bool) : Handler State unit :=
  modify (fun st => mkState (user st) (notes st) (editingNote st)
                            (isFormOpen st) v (error st)).

Definition setError (v : option string) : Handler State unit :=
  modify (fun st => mkState (user st) (notes st) (editingNote st)
                            (isFormOpen st) (isLoading st) v).

Open Scope handler_scope.

(** [getUser] (lines 31-38). *)
Definition getUser (w : World) : Handler State unit :=
  match session w with
  | None => push "/sign-in"
  | Some uid => setUser (Some uid)
  end.

(** The subscription callback as a handler. *)
Definition onPayload (payload : Payload) : Handler State unit :=
  setNotes (applyRemoteEvent payload).

(** [fetchNotes] (lines 42-61). *)
Definition fetchNotes (w : World) : Handler State unit :=
  st <- get ;;
  match user st with
  | None => ret tt
  | Some uid =>
      setIsLoading true ;;
      setError None ;;
      r <- send w (SelectOwned uid) ;;
      match Reply.error r with
      | Some _ => setError (Some "Failed to load notes. Please try again.")
      | None =>
          setNotes (fun _ => match Reply.data r with NoteRows l => l | _ => [] end)
      end ;;
      setIsLoading false
  end.

(** [handleAddNote] (lines 106-129): the inserted object has the three keys
    [title], [content] and [user_id]. *)
Definition handleAddNote (w : World) (noteData : NoteData.t) : Handler State unit :=
  st <- get ;;
  match user st with
  | None => ret tt
  | Some uid =>
      setError None ;;
      r <- send w (Insert [("title", VString (NoteData.title noteData));
                           ("content", VString (NoteData.content noteData));
                           ("user_id", VString uid)]) ;;
      match Reply.error r with
      | Some _ => setError (Some "Failed to create note. Please try again.")
      | None => setIsFormOpen false
      end
  end.

(** [handleUpdateNote] (lines 131-167): returns at once without an [id] or
    without a user; otherwise sends the update, filtered by [id] and by
    [user_id]. *)
Definition handleUpdateNote (w : World) (updatedNote : NoteData.t) : Handler State unit :=
  st <- get ;;
  match NoteData.id updatedNote, user st with
  | Some i, Some uid =>
      if JS.truthy i then
        setError None ;;
        r <- send w (Update
               ([("title", VString (NoteData.title updatedNote));
                 ("content", VString (NoteData.content updatedNote))]
                ++ field_opt "is_public" (option_map VBool (NoteData.is_public updatedNote))
                ++ field_opt "tags" (option_map VStrings (NoteData.tags updatedNote))
                ++ [("updated_at", VString (now w))])
               i uid) ;;
        match Reply.error r with
        | Some _ => setError (Some "Failed to update note. You may not have permission.")
        | None => setEditingNote None
        end
      else ret tt
  | _, _ => ret tt
  end.

(** [handleDeleteNote] (lines 169-192). *)
Definition handleDeleteNote (w : World) (i : string) : Handler State unit :=
  st <- get ;;
  match user st with
  | None => ret tt
  | Some uid =>
      setError None ;;
      r <- send w (Delete i uid) ;;
      match Reply.error r with
      | Some _ => setError (Some "Failed to delete note. You may not have permission.")
      | None => ret tt
      end
  end.

(** [startEditing] (lines 194-197). *)
Definition startEditing (n : Note) : Handler State unit :=
  setEditingNote (Some n) ;;
  setIsFormOpen false.

Close Scope handler_scope.

End NotesPage.

(** ** The single-note view: [src/app/notes/[id]/page.tsx] *)
Module SingleNotePage.

Inductive Mode : Type := edit | preview.

(** The component state: one field per [useState], and [params_id] for the
    route parameter [params.id]. *)
Record State : Type := mkState {
  params_id : string;
  user : option string;
  isAuthChecked : bool;
  note : option Note;
  profile : option Profile;
  isLoading : bool;
  error : option string;
  mode : Mode;
  editedTitle : string;
  editedContent : string;
  editedIsPublic : bool;
  editedTags : list string;
  tagInput : string;
  isSaving : bool;
  isDeleting : bool;
  showMenu : bool
}.

Definition setUser (v : option string) : Handler State unit :=
  modify (fun st => mkState (params_id st) v (isAuthChecked st)
    (note st) (profile st) (isLoading st) (error st) (mode st)
    (editedTitle st) (editedContent st) (editedIsPublic st) (editedTags st)
    (tagInput st) (isSaving st) (isDeleting st) (showMenu st)).

Definition setIsAuthChecked (v : bool) : Handler State unit :=
  modify (fun st => mkState (params_id st) (user st) v
    (note st) (profile st) (isLoading st) (error st) (mode st)
    (editedTitle st) (editedContent st) (editedIsPublic st) (editedTags st)
    (tagInput st) (isSaving st) (isDeleting st) (showMenu st)).

Definition setNote (f : option Note -> option Note) : Handler State unit :=
  modify (fun st => mkState (params_id st) (user st) (isAuthChecked st)
    (f (note st)) (profile st) (isLoading st) (error st) (mode st)
    (editedTitle st) (editedContent st) (editedIsPublic st) (editedTags st)
    (tagInput st) (isSaving st) (isDeleting st) (showMenu st)).

Definition setProfile (v : option Profile) : Handler State unit :=
  modify (fun st => mkState (params_id st) (user st) (isAuthChecked st)
    (note st) v (isLoading st) (error st) (mode st)
    (editedTitle st) (editedContent st) (editedIsPublic st) (editedTags st)
    (tagInput st) (isSaving st) (isDeleting st) (showMenu st)).

Definition setIsLoading (v : bool) : Handler State unit :=
  modify (fun st => mkState (params_id st) (user st) (isAuthChecked st)
    (note st) (profile st) v (error st) (mode st)
    (editedTitle st) (editedContent st) (editedIsPublic st) (editedTags st)
    (tagInput st) (isSaving st) (isDeleting st) (showMenu st)).

Definition setError (v : option string) : Handler State unit :=
  modify (fun st => mkState (params_id st) (user st) (isAuthChecked st)
    (note st) (profile st) (isLoading st) v (mode st)
    (editedTitle st) (editedContent st) (editedIsPublic st) (editedTags st)
    (tagInput st) (isSaving st) (isDeleting st) (showMenu st)).

Definition setMode (v : Mode) : Handler State unit :=
  modify (fun st => mkState (params_id st) (user st) (isAuthChecked st)
    (note st) (profile st) (isLoading st) (error st) v
    (editedTitle st) (editedContent st) (editedIsPublic st) (editedTags st)
    (tagInput st) (isSaving st) (isDeleting st) (showMenu st)).

Definition setEditedTitle (v : string) : Handler State unit :=
  modify (fun st => mkState (params_id st) (user st) (isAuthChecked st)
    (note st) (profile st) (isLoading st) (error st) (mode st)
    v (editedContent st) (editedIsPublic st) (editedTags st)
    (tagInput st) (isSaving st) (isDeleting st) (showMenu st)).

Definition setEditedContent (v : string) : Handler State unit :=
  modify (fun st => mkState (params_id st) (user st) (isAuthChecked st)
    (note st) (profile st) (isLoading st) (error st) (mode st)
    (editedTitle st) v (editedIsPublic st) (editedTags st)
    (tagInput st) (isSaving st) (isDeleting st) (showMenu st)).

Definition setEditedIsPublic (v : bool) : Handler State unit :=
  modify (fun st => mkState (params_id st) (user st) (isAuthChecked st)
    (note st) (profile st) (isLoading st) (error st) (mode st)
    (editedTitle st) (editedContent st) v (editedTags st)
    (tagInput st) (isSaving st) (isDeleting st) (showMenu st)).

Definition setEditedTags (v : list string) : Handler State unit :=
  modify (fun st => mkState (params_id st) (user st) (isAuthChecked st)
    (note st) (profile st) (isLoading st) (error st) (mode st)
    (editedTitle st) (editedContent st) (editedIsPublic st) v
    (tagInput st) (isSaving st) (isDeleting st) (showMenu st)).

Definition setTagInput (v : string) : Handler State unit :=
  modify (fun st => mkState (params_id st) (user st) (isAuthChecked st)
    (note st) (profile st) (isLoading st) (error st) (mode st)
    (editedTitle st) (editedContent st) (editedIsPublic st) (editedTags st)
    v (isSaving st) (isDeleting st) (showMenu st)).

Definition setIsSaving (v : bool) : Handler State unit :=
  modify (fun st => mkState (params_id st) (user st) (isAuthChecked st)
    (note st) (profile st) (isLoading st) (error st) (mode st)
    (editedTitle st) (editedContent st) (editedIsPublic st) (editedTags st)
    (tagInput st) v (isDeleting st) (showMenu st)).

Definition setIsDeleting (v : bool) : Handler State unit :=
  modify (fun st => mkState (params_id st) (user st) (isAuthChecked st)
    (note st) (profile st) (isLoading st) (error st) (mode st)
    (editedTitle st) (editedContent st) (editedIsPublic st) (editedTags st)
    (tagInput st) (isSaving st) v (showMenu st)).

(** [const isNewNote = params.id === "new"] (line 47). *)
Definition isNewNote (st : State) : bool :=
  String.eqb (params_id st) "new".

(** [const isAuthor = user && note && user.id === note.user_id] (line 145),
    evaluated on every render from the current [user] and [note]; the value
    is read in boolean positions only. *)
Definition isAuthor (st : State) : bool :=
  match user st, note st with
  | Some uid, Some n => String.eqb uid (user_id n)
  | _, _ => false
  end.

Open Scope handler_scope.

(** [getUser] (lines 51-66). *)
Definition getUser (w : World) : Handler State unit :=
  st <- get ;;
  match session w with
  | Some uid => setUser (Some uid)
  | None => ret tt
  end ;;
  setIsAuthChecked true ;;
  match session w with
  | None => if isNewNote st then push "/sign-in" else ret tt
  | Some _ => ret tt
  end.

(** [fetchNote] (lines 72-140). *)
Definition fetchNote (w : World) : Handler State unit :=
  st <- get ;;
  if negb (isAuthChecked st) then ret tt
  else if isNewNote st then
    match user st with
    | None => push "/sign-in"
    | Some _ =>
        setMode edit ;;
        setEditedTitle EmptyString ;;
        setEditedContent EmptyString ;;
        setEditedIsPublic false ;;
        setEditedTags [] ;;
        setIsLoading false
    end
  else
    setIsLoading true ;;
    setError None ;;
    r <- send w (SelectById (params_id st)) ;;
    match Reply.error r with
    | Some noteError =>
        if String.eqb (code noteError) "PGRST116"
        then setError (Some "Note not found")
        else setError (Some "This note is private")
    | None =>
        match Reply.data r with
        | NoteRow noteData =>
            setNote (fun _ => Some noteData) ;;
            setEditedTitle (title noteData) ;;
            setEditedContent (content noteData) ;;
            setEditedIsPublic (JS.orDefault (is_public noteData) false) ;;
            setEditedTags (JS.orDefault (tags noteData) []) ;;
            p <- send w (SelectProfile (user_id noteData)) ;;
            match Reply.data p with
            | ProfileRow profileData => setProfile (Some profileData)
            | _ => ret tt
            end
        | _ => setError (Some "Note not found")
        end
    end ;;
    setIsLoading false.

(** [handleAddTag] (lines 147-153). *)
Definition handleAddTag : Handler State unit :=
  st <- get ;;
  let trimmedTag := JS.toLowerCase (JS.trim (tagInput st)) in
  if JS.truthy trimmedTag && negb (JS.includes (editedTags st) trimmedTag) then
    setEditedTags (editedTags st ++ [trimmedTag]) ;;
    setTagInput EmptyString
  else ret tt.

(** [handleRemoveTag] (lines 155-157). *)
Definition handleRemoveTag (tagToRemove : string) : Handler State unit :=
  st <- get ;;
  setEditedTags (filter (fun tag => negb (String.eqb tag tagToRemove)) (editedTags st)).

(** [handleSave] (lines 166-244). *)
Definition handleSave (w : World) : Handler State unit :=
  st <- get ;;
  match user st with
  | None => setError (Some "You must be logged in to save notes")
  | Some uid =>
      if negb (JS.truthy (JS.trim (editedTitle st)))
         || negb (JS.truthy (JS.trim (editedContent st)))
      then setError (Some "Title and content are required")
      else if negb (isNewNote st) && negb (isAuthor st)
      then setError (Some "You don't have permission to edit this note")
      else
        setIsSaving true ;;
        setError None ;;
        (if isNewNote st then
           r <- send w (InsertReturning
                  [("title", VString (editedTitle st));
                   ("content", VString (editedContent st));
                   ("user_id", VString uid);
                   ("is_public", VBool (editedIsPublic st));
                   ("tags", VStrings (editedTags st))]) ;;
           match Reply.error r with
           | Some _ => setError (Some "Failed to create note")
           | None =>
               match Reply.data r with
               | NoteRow row => push ("/notes/" ++ id row)%string
               | _ => setError (Some (if JS.truthy (nullDeref w) then nullDeref w
                                      else "Failed to save note"))
               end
           end
         else
           r <- send w (Update
                  [("title", VString (editedTitle st));
                   ("content", VString (editedContent st));
                   ("updated_at", VString (now w));
                   ("is_public", VBool (editedIsPublic st));
                   ("tags", VStrings (editedTags st))]
                  (params_id st) uid) ;;
           match Reply.error r with
           | Some _ => setError (Some "Failed to save note")
           | None =>
               setNote (option_map (fun prev =>
                 mkNote (id prev) (user_id prev) (editedTitle st) (editedContent st)
                        (created_at prev) (Some (editedIsPublic st))
                        (Some (editedTags st)))) ;;
               setMode preview
           end) ;;
        setIsSaving false
  end.

(** [handleDelete] (lines 246-280). *)
Definition handleDelete (w : World) : Handler State unit :=
  st <- get ;;
  match note st, user st with
  | Some n, Some uid =>
      if negb (isAuthor st)
      then setError (Some "You don't have permission to delete this note")
      else if negb (confirmed w) then ret tt
      else
        setIsDeleting true ;;
        setError None ;;
        r <- send w (Delete (id n) uid) ;;
        match Reply.error r with
        | Some _ =>
            setError (Some "Failed to delete note") ;;
            setIsDeleting false
        | None => push "/notes"
        end
  | _, _ => ret tt
  end.

Close Scope handler_scope.

End SingleNotePage.

(** ** The form component: [src/components/notes/NoteForm.tsx] *)
Module NoteForm.

(** The [note] state of the form. *)
Record FormNote : Type := mkFormNote {
  title : string;
  content : string;
  is_public : bool;
  tags : list string
}.

Record State : Type := mkState {
  note : FormNote;
  tagInput : string;
  isTitleFocused : bool;
  isContentFocused : bool
}.

Definition setNote (v : FormNote) (st : State) : State :=
  mkState v (tagInput st) (isTitleFocused st) (isContentFocused st).

Definition setTagInput (v : string) (st : State) : State :=
  mkState (note st) v (isTitleFocused st) (isContentFocused st).

(** The effect on [initialData] (lines 22-29). *)
Definition onInitialData (initialData : NoteData.t) (st : State) : State :=
  setNote (mkFormNote (NoteData.title initialData)
                      (NoteData.content initialData)
                      (JS.orDefault (NoteData.is_public initialData) false)
                      (JS.orDefault (NoteData.tags initialData) []))
          st.

(** [handleSubmit] (lines 31-39): calls the [onSubmit] property with
    [{ ...note, id: initialData.id }], or does nothing.  [S] is the state of
    the component that owns [onSubmit]. *)
Definition handleSubmit {S : Type} (onSubmit : NoteData.t -> Handler S unit)
    (initialData : NoteData.t) (st : State) : Handler S unit :=
  if JS.truthy (JS.trim (title (note st))) && JS.truthy (JS.trim (content (note st)))
  then onSubmit (NoteData.mk (title (note st)) (content (note st))
                             (NoteData.id initialData)
                             (Some (is_public (note st)))
                             (Some (tags (note st))))
  else ret tt.

(** [handleAddTag] (lines 41-47). *)
Definition handleAddTag (st : State) : State :=
  let trimmedTag := JS.toLowerCase (JS.trim (tagInput st)) in
  if JS.truthy trimmedTag && negb (JS.includes (tags (note st)) trimmedTag) then
    setTagInput EmptyString
      (setNote (mkFormNote (title (note st)) (content (note st))
                           (is_public (note st))
                           (tags (note st) ++ [trimmedTag]))
               st)
  else st.

(** [handleRemoveTag] (lines 49-51). *)
Definition handleRemoveTag (tagToRemove : string) (st : State) : State :=
  setNote (mkFormNote (title (note st)) (content (note st))
                      (is_public (note st))
                      (filter (fun tag => negb (String.eqb tag tagToRemove))
                              (tags (note st))))
          st.

End NoteForm.

(** ** The backend: [src/supabase/migrations/*.sql] *)
Module Supabase.

(** The [notes] table. *)
Definition Db : Type := list Note.

(** Policy 1, [FOR SELECT USING (is_public = true)]. *)
Definition view_public_notes (r : Note) : bool :=
  match is_public r with
  | Some true => true
  | _ => false
  end.

(** [auth.uid() = user_id], the condition of policies 2 to 5; [uid] is
    [auth.uid()], absent for a request without a session. *)
Definition own_row (uid : option string) (r : Note) : bool :=
  match uid with
  | Some u => String.eqb u (user_id r)
  | None => false
  end.

(** Row visibility for [SELECT]: the two permissive policies, either of
    which admits the row. *)
Definition can_select (uid : option string) (r : Note) : bool :=
  view_public_notes r || own_row uid r.

(** Modelled from the spec: the answer of the store to a single-row fetch,
    which is not part of the repository.  A row the policies hide is left
    out of the result like a row that does not exist, and [.single()] on a
    result that is not exactly one row answers with the error code
    [PGRST116] that [fetchNote] tests for ("the store returns the same
    not-found signal for both"). *)
Definition single (rows : list Note) : Reply.t :=
  match rows with
  | [r] => Reply.mk (NoteRow r) None
  | _ => Reply.mk Null
           (Some (mkError "PGRST116" "JSON object requested, multiple (or no) rows returned"))
  end.

(** The rows a fetch by id selects, for an id that the column type accepts;
    the cast of the route parameter to the column type comes before it, in
    [SupabaseUuid.respond] below. *)
Definition select_by_id (db : Db) (uid : option string) (i : string) : Reply.t :=
  single (filter (fun r => can_select uid r && String.eqb (id r) i) db).

(** Column values of an inserted row.  [user_id], [title] and [content] are
    [NOT NULL] without a default; [is_public] has [DEFAULT false] and [tags]
    has [DEFAULT '{}'], used when the key is absent from the body. *)
Definition column_text (key : string) (body : Obj) : option string :=
  match lookup key body with
  | Some (VString s) => Some s
  | _ => None
  end.

Definition column_is_public (body : Obj) : option bool :=
  match lookup "is_public" body with
  | None => Some false
  | Some (VBool b) => Some b
  | Some _ => None
  end.

Definition column_tags (body : Obj) : option (list string) :=
  match lookup "tags" body with
  | None => Some []
  | Some (VStrings l) => Some l
  | Some _ => None
  end.

(** A text column with a default: the value of the body when the key is
    present, the default when it is absent. *)
Definition column_text_default (key : string) (body : Obj) (default : string)
    : option string :=
  match lookup key body with
  | None => Some default
  | Some (VString s) => Some s
  | Some _ => None
  end.

(** The row [INSERT] builds from a body; [uuid] and [clock] stand for
    [gen_random_uuid()] and [now()], the defaults of [id] and [created_at],
    used like the other defaults when the body does not name the column. *)
Definition new_row (uuid clock : string) (body : Obj) : option Note :=
  match column_text_default "id" body uuid, column_text "user_id" body,
        column_text "title" body, column_text "content" body,
        column_text_default "created_at" body clock,
        column_is_public body, column_tags body with
  | Some i, Some u, Some t, Some c, Some a, Some p, Some g =>
      Some (mkNote i u t c a (Some p) (Some g))
  | _, _, _, _, _, _, _ => None
  end.

(** [INSERT] under policy 3, [WITH CHECK (auth.uid() = user_id)]: the table
    after the request, or [None] when the row is rejected. *)
Definition insert (db : Db) (uid : option string) (uuid clock : string)
    (body : Obj) : option Db :=
  match new_row uuid clock body with
  | Some r => if own_row uid r then Some (r :: db) else None
  | None => None
  end.

(** A backend that answers single-row fetches from the table [db] for the
    session [uid], and every other request as [other] does. *)
Definition respond (db : Db) (uid : option string) (other : Request -> Reply.t)
    (r : Request) : Reply.t :=
  match r with
  | SelectById i => select_by_id db uid i
  | _ => other r
  end.

End Supabase.

(** ** Definitions used to state the properties *)

(** An [Inserted] event. *)
Definition isInsert (payload : NotesPage.Payload) : bool :=
  match payload with
  | NotesPage.INSERT _ => true
  | _ => false
  end.

(** The rule for [Inserted] in the words of the specification: replace in
    place when the id is already present, insert at the head otherwise. *)
Definition insertedPerSpec (new : Note) (prev : list Note) : list Note :=
  if existsb (fun note => String.eqb (id note) (id new)) prev
  then map (fun note => if String.eqb (id note) (id new) then new else note) prev
  else new :: prev.

(** The order of the list: [created_at] descending.  The timestamps are
    ISO strings of one format, which compare as strings. *)
Definition notOlder (a b : Note) : bool :=
  String.leb (created_at b) (created_at a).

Fixpoint newestFirst (l : list Note) : bool :=
  match l with
  | [] => true
  | a :: l' => forallb (notOlder a) l' && newestFirst l'
  end.

(** What a sequence of [Updated] and [Deleted] events does to one note of
    the list: [None] when it is removed. *)
Definition onNote (payload : NotesPage.Payload) (x : Note) : option Note :=
  match payload with
  | NotesPage.INSERT _ => Some x
  | NotesPage.UPDATE new => Some (if String.eqb (id x) (id new) then new else x)
  | NotesPage.DELETE old_id => if String.eqb (id x) old_id then None else Some x
  end.

Fixpoint onNoteAll (events : list NotesPage.Payload) (x : Note) : option Note :=
  match events with
  | [] => Some x
  | e :: events' =>
      match onNote e x with
      | Some y => onNoteAll events' y
      | None => None
      end
  end.

Fixpoint filterMap {A B : Type} (f : A -> option B) (l : list A) : list B :=
  match l with
  | [] => []
  | a :: l' =>
      match f a with
      | Some b => b :: filterMap f l'
      | None => filterMap f l'
      end
  end.

(** Whether the sequence deletes the id, and the last row it writes for it. *)
Fixpoint deletes (events : list NotesPage.Payload) (i : string) : bool :=
  match events with
  | [] => false
  | NotesPage.DELETE j :: events' => String.eqb i j || deletes events' i
  | _ :: events' => deletes events' i
  end.

Fixpoint lastUpdate (events : list NotesPage.Payload) (i : string) : option Note :=
  match events with
  | [] => None
  | NotesPage.UPDATE new :: events' =>
      match lastUpdate events' i with
      | Some m => Some m
      | None => if String.eqb i (id new) then Some new else None
      end
  | _ :: events' => lastUpdate events' i
  end.

(** Rows of the scenarios. *)
Definition row (i owner t created : string) : Note :=
  mkNote i owner t "text" created (Some false) (Some []).

Definition noteA : Note := row "A" "U" "a" "2024-04-03T00:00:00Z".
Definition noteB : Note := row "B" "U" "b" "2024-04-01T00:00:00Z".
Definition noteC : Note := row "C" "U" "c" "2024-04-05T00:00:00Z".
Definition noteAX : Note := row "A" "U" "X" "2024-04-03T00:00:00Z".

Definition noteV : Note := row "N" "V" "n" "2024-04-02T00:00:00Z".

(** A backend that accepts every request and returns no row. *)
Definition acceptAll : World :=
  mkWorld (Some "U") (fun _ => Reply.mk Null None) "2024-04-06T00:00:00Z" true
          "Cannot read properties of null (reading 'id')".

(** The list view of user [U], with a row of user [V] in its list. *)
Definition listOfU : NotesPage.State :=
  NotesPage.mkState (Some "U") [noteA; noteV] None false false None.

(** The single-note view of user [U] (or of nobody) on the note [N] of
    user [V], and on the route of a new note. *)
Definition viewOfN (u : option string) (t c : string) : SingleNotePage.State :=
  SingleNotePage.mkState "N" u true (Some noteV) None false None
    SingleNotePage.edit t c false [] EmptyString false false false.

Definition viewOfNew (u : option string) (t c : string) : SingleNotePage.State :=
  SingleNotePage.mkState "new" u true None None false None
    SingleNotePage.edit t c false [] EmptyString false false false.

(** A form holding the draft [t], [c]. *)
Definition formOf (t c : string) : NoteForm.State :=
  NoteForm.mkState (NoteForm.mkFormNote t c true ["x"]) EmptyString false false.

Definition noData : NoteData.t :=
  NoteData.mk EmptyString EmptyString None None None.

(** The invariant of a tag list: no duplicate, no empty string, lower case
    only. *)
Definition tagsWellFormed (l : list string) : Prop :=
  NoDup l /\ ~ In EmptyString l /\ Forall (fun t => JS.toLowerCase t = t) l.

(** [l1] is [l2] with some elements left out, the others in their order. *)
Inductive Subseq {A : Type} : list A -> list A -> Prop :=
| Subseq_nil : Subseq [] []
| Subseq_skip (x : A) (l1 l2 : list A) : Subseq l1 l2 -> Subseq l1 (x :: l2)
| Subseq_keep (x : A) (l1 l2 : list A) : Subseq l1 l2 -> Subseq (x :: l1) (x :: l2).

(** The text field of the tag input receives [v]. *)
Definition typeTag (v : string) : Handler SingleNotePage.State unit :=
  SingleNotePage.setTagInput v.

(** The scenario of the tags: "Work", "work" and "work" typed and added in
    turn. *)
Definition addWorkThrice : Handler SingleNotePage.State unit :=
  (typeTag "Work" ;; SingleNotePage.handleAddTag ;;
   typeTag "work" ;; SingleNotePage.handleAddTag ;;
   typeTag "work" ;; SingleNotePage.handleAddTag)%handler.

(** ** Further definitions: the rest of the components *)

(** The initial values of the [useState] calls of the two pages (page.tsx
    lines 21-26, [id]/page.tsx lines 31-45); [route] is [params.id]. *)
Definition listInitial : NotesPage.State :=
  NotesPage.mkState None [] None false true None.

Definition singleInitial (route : string) : SingleNotePage.State :=
  SingleNotePage.mkState route None false None None true None
    SingleNotePage.preview EmptyString EmptyString false [] EmptyString
    false false false.

(** The two effects of the single-note view after the first render: the
    session is read, then the note is fetched with the auth check done (the
    run of [fetchNote] before that returns at once). *)
Definition singleMount (w : World) : Handler SingleNotePage.State unit :=
  bind (SingleNotePage.fetchNote w) (fun _ =>
  bind (SingleNotePage.getUser w) (fun _ =>
  SingleNotePage.fetchNote w)).

(** The two effects of the list view after the first render (lines 30-40
    and 63-67). *)
Definition listMount (w : World) : Handler NotesPage.State unit :=
  bind (NotesPage.getUser w) (fun _ => NotesPage.fetchNotes w).

(** What the single-note view renders ([id]/page.tsx, lines 299-729): the
    skeleton while loading, the error screen for an error outside the
    new-note route, the note otherwise, with the conditions under which its
    controls are rendered. *)
Module SingleNoteView.

Inductive Screen : Type :=
| Skeleton
| ErrorScreen (message : string)
| NoteScreen.

Definition screen (st : SingleNotePage.State) : Screen :=
  if SingleNotePage.isLoading st then Skeleton
  else match SingleNotePage.error st with
       | Some e =>
           if JS.truthy e && negb (SingleNotePage.isNewNote st)
           then ErrorScreen e else NoteScreen
       | None => NoteScreen
       end.

Definition isEdit (m : SingleNotePage.Mode) : bool :=
  match m with
  | SingleNotePage.edit => true
  | SingleNotePage.preview => false
  end.

(** [isAuthor && !isNewNote] (line 369). *)
Definition showsModeToggle (st : SingleNotePage.State) : bool :=
  SingleNotePage.isAuthor st && negb (SingleNotePage.isNewNote st).

(** [(mode === "edit" || isNewNote) && isAuthor] (line 395). *)
Definition showsSaveButton (st : SingleNotePage.State) : bool :=
  (isEdit (SingleNotePage.mode st) || SingleNotePage.isNewNote st)
  && SingleNotePage.isAuthor st.

(** [!isNewNote && isAuthor] (line 408). *)
Definition showsDeleteButton (st : SingleNotePage.State) : bool :=
  negb (SingleNotePage.isNewNote st) && SingleNotePage.isAuthor st.

(** [mode === "preview" && !isNewNote] (line 421). *)
Definition showsMenu (st : SingleNotePage.State) : bool :=
  negb (isEdit (SingleNotePage.mode st)) && negb (SingleNotePage.isNewNote st).

(** [(mode === "edit" && isAuthor) || isNewNote] (lines 549 and 690): the
    title, visibility, tag and content inputs instead of the rendered
    note. *)
Definition showsEditor (st : SingleNotePage.State) : bool :=
  (isEdit (SingleNotePage.mode st) && SingleNotePage.isAuthor st)
  || SingleNotePage.isNewNote st.

(** [profile.full_name || "Anonymous"] in the author block. *)
Definition authorName (p : Profile) : string :=
  match full_name p with
  | Some s => if JS.truthy s then s else "Anonymous"
  | None => "Anonymous"
  end.

End SingleNoteView.

(** The list view hands the note being edited to the form as
    [initialData] (page.tsx, lines 252-260): the fields of the row the form
    reads. *)
Definition noteDataOf (n : Note) : NoteData.t :=
  NoteData.mk (title n) (content n) (Some (id n)) (is_public n) (tags n).

(** The [NoteForm] of the list view for the note being edited, submitted:
    [onSubmit] is [handleUpdateNote]; nothing is rendered without
    [editingNote]. *)
Definition submitEdit (w : World) (form : NoteForm.State) : Handler NotesPage.State unit :=
  fun st =>
    match NotesPage.editingNote st with
    | Some n =>
        NoteForm.handleSubmit (NotesPage.handleUpdateNote w) (noteDataOf n) form st
    | None => (tt, st, [])
    end.

(** A request that names the user [u] as the owner: the [user_id] filter of
    a select, update or delete, the [user_id] key of an inserted body. *)
Definition scopedTo (u : string) (r : Request) : bool :=
  match r with
  | SelectOwned v => String.eqb v u
  | Insert body | InsertReturning body =>
      match lookup "user_id" body with
      | Some (VString v) => String.eqb v u
      | _ => false
      end
  | Update _ _ v => String.eqb v u
  | Delete _ v => String.eqb v u
  | SelectById _ => false
  | SelectProfile _ => false
  end.

(** The id an event is about. *)
Definition target (payload : NotesPage.Payload) : string :=
  match payload with
  | NotesPage.INSERT new => id new
  | NotesPage.UPDATE new => id new
  | NotesPage.DELETE old_id => old_id
  end.

(** No two notes of the list have the same id. *)
Definition uniqueIds (l : list Note) : Prop := NoDup (map id l).

(** A string without white space at either end. *)
Definition trimmed (s : string) : Prop := JS.trim s = s.

(** The text a tag input is normalised to, and a tag that is its own
    normal form: not empty, trimmed and in lower case. *)
Definition normalTag (input : string) : string := JS.toLowerCase (JS.trim input).

Definition isNormalTag (t : string) : Prop :=
  t <> EmptyString /\ normalTag t = t.

(** The tag list after [handleAddTag], which the form and the single-note
    view compute alike. *)
Definition tagsAfterAdd (input : string) (l : list string) : list string :=
  if JS.truthy (normalTag input) && negb (JS.includes l (normalTag input))
  then l ++ [normalTag input] else l.

(** ** Writes on the [notes] table under the policies of the migration *)
Module SupabaseWrites.

(** [DELETE FROM notes WHERE id = eq_id AND user_id = eq_user_id] under
    policy 5, [USING (auth.uid() = user_id)]: the rows that the filters and
    the policy select are removed. *)
Definition selected (uid : option string) (eq_id eq_user_id : string) (r : Note) : bool :=
  Supabase.own_row uid r && String.eqb (id r) eq_id && String.eqb (user_id r) eq_user_id.

Definition delete (db : Supabase.Db) (uid : option string) (eq_id eq_user_id : string)
    : Supabase.Db :=
  filter (fun r => negb (selected uid eq_id eq_user_id r)) db.

(** The new value of a text column: the one of the body when the key is
    present, the old one otherwise; [None] for a value of another type. *)
Definition set_text (key : string) (body : Obj) (old : string) : option string :=
  match lookup key body with
  | None => Some old
  | Some (VString s) => Some s
  | Some _ => None
  end.

Definition set_is_public (body : Obj) (old : option bool) : option (option bool) :=
  match lookup "is_public" body with
  | None => Some old
  | Some (VBool b) => Some (Some b)
  | Some _ => None
  end.

Definition set_tags (body : Obj) (old : option (list string))
    : option (option (list string)) :=
  match lookup "tags" body with
  | None => Some old
  | Some (VStrings l) => Some (Some l)
  | Some _ => None
  end.

(** The row after [UPDATE notes SET ...body...]; the [updated_at] column,
    which the rows of the model do not carry, is set by the trigger
    [set_updated_at_notes] whatever the body says. *)
Definition patched (body : Obj) (r : Note) : option Note :=
  match set_text "id" body (id r), set_text "user_id" body (user_id r),
        set_text "title" body (title r), set_text "content" body (content r),
        set_text "created_at" body (created_at r),
        set_is_public body (is_public r), set_tags body (tags r) with
  | Some i, Some u, Some t, Some c, Some a, Some p, Some g =>
      Some (mkNote i u t c a p g)
  | _, _, _, _, _, _, _ => None
  end.

(** [UPDATE notes SET ... WHERE id = eq_id AND user_id = eq_user_id] under
    policy 4, [USING (auth.uid() = user_id) WITH CHECK (auth.uid() =
    user_id)]: the selected rows are patched, and the statement fails
    ([None]) when a patched row does not pass the check. *)
Fixpoint update (db : Supabase.Db) (uid : option string) (body : Obj)
    (eq_id eq_user_id : string) : option Supabase.Db :=
  match db with
  | [] => Some []
  | r :: db' =>
      match update db' uid body eq_id eq_user_id with
      | None => None
      | Some rest =>
          if selected uid eq_id eq_user_id r then
            match patched body r with
            | Some r' => if Supabase.own_row uid r' then Some (r' :: rest) else None
            | None => None
            end
          else Some (r :: rest)
      end
  end.

(** The table after a request of the session [uid]; the reads leave it as
    it is, and [uuid] and [clock] are used by an insert. *)
Definition execute (uid : option string) (uuid clock : string)
    (db : Supabase.Db) (r : Request) : option Supabase.Db :=
  match r with
  | Insert body | InsertReturning body => Supabase.insert db uid uuid clock body
  | Update body eq_id eq_user_id => update db uid body eq_id eq_user_id
  | Delete eq_id eq_user_id => Some (delete db uid eq_id eq_user_id)
  | SelectOwned _ | SelectById _ | SelectProfile _ => Some db
  end.

(** The table after the requests of a handler, in order; [None] when one
    of them fails. *)
Fixpoint executeAll (uid : option string) (uuid clock : string)
    (db : Supabase.Db) (rs : list Request) : option Supabase.Db :=
  match rs with
  | [] => Some db
  | r :: rs' =>
      match execute uid uuid clock db r with
      | Some db' => executeAll uid uuid clock db' rs'
      | None => None
      end
  end.

End SupabaseWrites.

(** ** The [uuid] type of [notes.id] *)
Module SupabaseUuid.

(** [notes.id] is declared [uuid]: the filter value of a fetch by id is
    cast to that type before any row is looked at, and a text that is not
    in the input syntax of the type makes the query fail with the error of
    the cast.  The input syntax [uuid_in] and the error [castError] of the
    database are not part of the repository and are taken as they are. *)
Definition select_by_id (uuid_in : string -> bool) (castError : PostgrestError)
    (db : Supabase.Db) (uid : option string) (i : string) : Reply.t :=
  if uuid_in i then Supabase.select_by_id db uid i
  else Reply.mk Null (Some castError).

(** A backend that answers single-row fetches from the table [db] for the
    session [uid], with the cast, and every other request as [other]
    does. *)
Definition respond (uuid_in : string -> bool) (castError : PostgrestError)
    (db : Supabase.Db) (uid : option string) (other : Request -> Reply.t)
    (r : Request) : Reply.t :=
  match r with
  | SelectById i => select_by_id uuid_in castError db uid i
  | _ => other r
  end.

(** The standard text form of a uuid, groups of 8, 4, 4, 4 and 12
    hexadecimal digits with hyphens between them: a form that the input
    syntax of the type accepts, used to instantiate [uuid_in]. *)
Definition isHexDigit (c : ascii) : bool :=
  let n := nat_of_ascii c in
  ((48 <=? n) && (n <=? 57)) || ((65 <=? n) && (n <=? 70))
  || ((97 <=? n) && (n <=? 102)).

Fixpoint hexGroup (n : nat) (s : string) : option string :=
  match n, s with
  | O, _ => Some s
  | S n', String c s' => if isHexDigit c then hexGroup n' s' else None
  | S _, EmptyString => None
  end.

Fixpoint hexGroups (groups : list nat) (s : string) : bool :=
  match groups with
  | [] => false
  | n :: rest =>
      match hexGroup n s, rest with
      | Some EmptyString, [] => true
      | Some (String c s'), _ :: _ =>
          Ascii.eqb c "-"%char && hexGroups rest s'
      | _, _ => false
      end
  end.

Definition standardForm (s : string) : bool := hexGroups [8; 4; 4; 4; 12] s.

(** The error of the cast as the database reports it. *)
Definition invalidTextRepresentation : PostgrestError :=
  mkError "22P02" "invalid input syntax for type uuid".

End SupabaseUuid.

(** Rows and views of the scenario of the failed loads: a private note of
    user [V] under a uuid, a uuid that no row has, and a route that is not
    a uuid. *)
Definition privateNote : Note :=
  mkNote "7f3c9a52-0b1e-4c6d-9e2a-5d8f1b2c3a4e" "V" "n" "text"
         "2024-04-02T00:00:00Z" (Some false) (Some []).

Definition viewOfRoute (route : string) (u : option string) : SingleNotePage.State :=
  SingleNotePage.mkState route u true None None true None
    SingleNotePage.preview EmptyString EmptyString false [] EmptyString
    false false false.

Definition storeOfV (viewer : option string) : World :=
  mkWorld viewer
    (SupabaseUuid.respond SupabaseUuid.standardForm
       SupabaseUuid.invalidTextRepresentation [noteA; privateNote] viewer
       (fun _ => Reply.mk Null None))
    "2024-04-06T00:00:00Z" true "null".

(** * Properties *)

(** ** Reconciliation of the local note list with the change feed *)

Lemma applyRemoteEvents_cons (e : NotesPage.Payload) (s : list NotesPage.Payload)
    (l : list Note) :
  NotesPage.applyRemoteEvents (e :: s) l
  = NotesPage.applyRemoteEvents s (NotesPage.applyRemoteEvent e l).
Proof. reflexivity. Qed.

Lemma filterMap_map {A B C : Type} (f : A -> B) (g : B -> option C) (l : list A) :
  filterMap g (map f l) = filterMap (fun a => g (f a)) l.
Proof.
  induction l as [|a l IH]; simpl; [reflexivity|].
  rewrite IH. reflexivity.
Qed.

Lemma filterMap_filter {A B : Type} (p : A -> bool) (g : A -> option B) (l : list A) :
  filterMap g (filter p l) = filterMap (fun a => if p a then g a else None) l.
Proof.
  induction l as [|a l IH]; simpl; [reflexivity|].
  destruct (p a); simpl; rewrite IH; reflexivity.
Qed.

Lemma filterMap_ext {A B : Type} (f g : A -> option B) (l : list A) :
  (forall a, f a = g a) -> filterMap f l = filterMap g l.
Proof.
  intros E. induction l as [|a l IH]; simpl; [reflexivity|].
  rewrite E, IH. reflexivity.
Qed.

Lemma filterMap_Some {A : Type} (l : list A) : filterMap Some l = l.
Proof. induction l as [|a l IH]; simpl; congruence. Qed.

Lemma filterMap_compose {A B C : Type} (f : A -> option B) (g : B -> option C)
    (l : list A) :
  filterMap g (filterMap f l)
  = filterMap (fun a => match f a with Some b => g b | None => None end) l.
Proof.
  induction l as [|a l IH]; simpl; [reflexivity|].
  destruct (f a); simpl; rewrite IH; reflexivity.
Qed.

(** Without [Inserted] events the feed acts on each note of the list on its
    own. *)
Lemma applyRemoteEvents_pointwise (s : list NotesPage.Payload) :
  forallb (fun e => negb (isInsert e)) s = true ->
  forall l, NotesPage.applyRemoteEvents s l = filterMap (onNoteAll s) l.
Proof.
  induction s as [|e s IH]; intros Hs l.
  - simpl. symmetry. apply filterMap_Some.
  - simpl in Hs. apply andb_true_iff in Hs. destruct Hs as [He Hs].
    rewrite applyRemoteEvents_cons, (IH Hs).
    destruct e as [n|n|i]; [discriminate He| |]; simpl.
    + apply filterMap_map.
    + rewrite filterMap_filter. apply filterMap_ext. intros a.
      destruct (String.eqb (id a) i); reflexivity.
Qed.

Lemma lastUpdate_id (s : list NotesPage.Payload) (i : string) (m : Note) :
  lastUpdate s i = Some m -> id m = i.
Proof.
  induction s as [|e s IH]; simpl; [discriminate|].
  destruct e as [n|n|j]; auto.
  destruct (lastUpdate s i) as [m'|].
  - auto.
  - destruct (String.eqb i (id n)) eqn:E; [|discriminate].
    intros [= <-]. symmetry. now apply String.eqb_eq.
Qed.

(** The fate of one note under a sequence without [Inserted] events. *)
Lemma onNoteAll_char (s : list NotesPage.Payload) :
  forallb (fun e => negb (isInsert e)) s = true ->
  forall x,
    onNoteAll s x
    = if deletes s (id x) then None
      else Some (JS.orDefault (lastUpdate s (id x)) x).
Proof.
  induction s as [|e s IH]; intros Hs x; [reflexivity|].
  simpl in Hs. apply andb_true_iff in Hs. destruct Hs as [He Hs].
  destruct e as [n|n|j]; [discriminate He| |]; simpl.
  - rewrite (IH Hs).
    destruct (String.eqb (id x) (id n)) eqn:E.
    + apply String.eqb_eq in E. rewrite <- E.
      destruct (deletes s (id x)); [reflexivity|].
      destruct (lastUpdate s (id x)); reflexivity.
    + destruct (deletes s (id x)); [reflexivity|].
      destruct (lastUpdate s (id x)); reflexivity.
  - destruct (String.eqb (id x) j); simpl; [reflexivity|].
    apply (IH Hs).
Qed.

Lemma onNoteAll_idempotent (s : list NotesPage.Payload) (x y : Note) :
  forallb (fun e => negb (isInsert e)) s = true ->
  onNoteAll s x = Some y -> onNoteAll s y = Some y.
Proof.
  intros Hs. rewrite !(onNoteAll_char s Hs).
  destruct (deletes s (id x)) eqn:D; [discriminate|].
  intros [= <-].
  destruct (lastUpdate s (id x)) as [m|] eqn:L; simpl.
  - rewrite (lastUpdate_id _ _ _ L), D, L. reflexivity.
  - rewrite D, L. reflexivity.
Qed.

(** C1, as stated, fails: an [Inserted] event applied twice leaves two
    copies of the note in the list. *)
Lemma inserted_twice_duplicates :
  NotesPage.applyRemoteEvents [NotesPage.INSERT noteC]
    (NotesPage.applyRemoteEvents [NotesPage.INSERT noteC] [noteA; noteB])
  <> NotesPage.applyRemoteEvents [NotesPage.INSERT noteC] [noteA; noteB].
Proof. vm_compute. discriminate. Qed.

(** C1 (amended): a sequence of [Updated] and [Deleted] events is
    idempotent, applying it a second time changes nothing; an [Inserted]
    event is not, each application puts one more copy at the head. *)
Theorem remote_events_idempotent_without_inserts :
  (forall (s : list NotesPage.Payload) (l : list Note),
      (forall e, In e s -> isInsert e = false) ->
      NotesPage.applyRemoteEvents s (NotesPage.applyRemoteEvents s l)
      = NotesPage.applyRemoteEvents s l)
  /\ (forall (new : Note) (l : list Note),
        NotesPage.applyRemoteEvent (NotesPage.INSERT new)
          (NotesPage.applyRemoteEvent (NotesPage.INSERT new) l)
        = new :: new :: l).
Proof.
  split; [|reflexivity].
  intros s l Hs.
  assert (Hb : forallb (fun e => negb (isInsert e)) s = true).
  { apply forallb_forall. intros e He. now rewrite (Hs e He). }
  rewrite !(applyRemoteEvents_pointwise s Hb), filterMap_compose.
  induction l as [|x l IH]; simpl; [reflexivity|].
  destruct (onNoteAll s x) as [y|] eqn:E; [|exact IH].
  rewrite (onNoteAll_idempotent s x y Hb E), IH. reflexivity.
Qed.

Lemma remote_events_idempotent_witness :
  NotesPage.applyRemoteEvents
    [NotesPage.UPDATE noteAX; NotesPage.DELETE "B"]
    (NotesPage.applyRemoteEvents
       [NotesPage.UPDATE noteAX; NotesPage.DELETE "B"] [noteC; noteA; noteB])
  = NotesPage.applyRemoteEvents
      [NotesPage.UPDATE noteAX; NotesPage.DELETE "B"] [noteC; noteA; noteB].
Proof.
  apply (proj1 remote_events_idempotent_without_inserts).
  intros e [<-|[<-|[]]]; reflexivity.
Defined.

(** C2, as stated, fails: with a note of the same id in the list, the
    [Inserted] event does not replace it; the list has both. *)
Lemma inserted_existing_id_not_replaced :
  existsb (fun note => String.eqb (id note) (id noteAX)) [noteC; noteA; noteB] = true
  /\ NotesPage.applyRemoteEvent (NotesPage.INSERT noteAX) [noteC; noteA; noteB]
     = [noteAX; noteC; noteA; noteB]
  /\ NotesPage.applyRemoteEvent (NotesPage.INSERT noteAX) [noteC; noteA; noteB]
     <> insertedPerSpec noteAX [noteC; noteA; noteB].
Proof.
  split; [reflexivity|]. split; [reflexivity|].
  vm_compute. discriminate.
Qed.

(** C2 (amended): an [Inserted] event puts the note at the head of the list
    and leaves the notes already there as they are, whether or not one of
    them has the same id; when none has, this is what the specification
    asks for.  The list stays newest first when the note is not older than
    the notes of the list, and [A; B] with [Inserted(C)] is [C; A; B]. *)
Theorem inserted_at_head :
  (forall (new : Note) (l : list Note),
      NotesPage.applyRemoteEvent (NotesPage.INSERT new) l = new :: l)
  /\ (forall (new : Note) (l : list Note),
        (forall note, In note l -> id note <> id new) ->
        NotesPage.applyRemoteEvent (NotesPage.INSERT new) l = insertedPerSpec new l)
  /\ (forall (new : Note) (l : list Note),
        newestFirst l = true ->
        (forall note, In note l -> notOlder new note = true) ->
        newestFirst (NotesPage.applyRemoteEvent (NotesPage.INSERT new) l) = true)
  /\ NotesPage.applyRemoteEvent (NotesPage.INSERT noteC) [noteA; noteB]
     = [noteC; noteA; noteB].
Proof.
  split; [reflexivity|]. split; [|split; [|reflexivity]].
  - intros new l H. unfold insertedPerSpec.
    destruct (existsb _ l) eqn:E; [|reflexivity].
    apply existsb_exists in E. destruct E as [x [Hx Ex]].
    apply String.eqb_eq in Ex. now destruct (H x Hx).
  - intros new l Hl Hnew. simpl. rewrite Hl, andb_true_r.
    now apply forallb_forall.
Qed.

Lemma inserted_at_head_witness :
  NotesPage.applyRemoteEvent (NotesPage.INSERT noteC) [noteA; noteB]
  = insertedPerSpec noteC [noteA; noteB]
  /\ newestFirst (NotesPage.applyRemoteEvent (NotesPage.INSERT noteC) [noteA; noteB])
     = true.
Proof.
  split.
  - apply (proj1 (proj2 inserted_at_head)).
    intros note [<-|[<-|[]]]; vm_compute; discriminate.
  - apply (proj1 (proj2 (proj2 inserted_at_head))); [reflexivity|].
    intros note [<-|[<-|[]]]; reflexivity.
Defined.

(** C7: an [Updated] event keeps the length of the list and, at every
    position, puts the new row where the note has its id and keeps the note
    otherwise. *)
Theorem updated_replaces_in_place (new : Note) (l : list Note) :
  List.length (NotesPage.applyRemoteEvent (NotesPage.UPDATE new) l) = List.length l
  /\ forall k : nat,
       nth_error (NotesPage.applyRemoteEvent (NotesPage.UPDATE new) l) k
       = option_map (fun note => if String.eqb (id note) (id new) then new else note)
                    (nth_error l k).
Proof.
  split.
  - apply length_map.
  - intros k. apply nth_error_map.
Qed.

(** The scenario of C7: [A] second of three, [Updated(A, title = X)]. *)
Example updated_scenario :
  NotesPage.applyRemoteEvent (NotesPage.UPDATE noteAX) [noteC; noteA; noteB]
  = [noteC; noteAX; noteB].
Proof. reflexivity. Qed.

Lemma filter_id_absent (i : string) (l : list Note) :
  (forall note, In note l -> id note <> i) ->
  filter (fun note => negb (String.eqb (id note) i)) l = l.
Proof.
  induction l as [|x l IH]; intros H; simpl; [reflexivity|].
  destruct (String.eqb (id x) i) eqn:E.
  - apply String.eqb_eq in E. destruct (H x (or_introl eq_refl) E).
  - simpl. f_equal. apply IH. intros y Hy. apply H. now right.
Qed.

(** C8: a [Deleted] event leaves exactly the notes with another id, in
    their order; it changes nothing but [notes], sends nothing, and when no
    note has the id the whole state is as before. *)
Theorem deleted_removes_or_noop (i : string) (st : NotesPage.State) :
  let st' := stateAfter (NotesPage.onPayload (NotesPage.DELETE i)) st in
  (forall note, In note (NotesPage.notes st')
                <-> In note (NotesPage.notes st) /\ id note <> i)
  /\ (forall l1 x l2, NotesPage.notes st = l1 ++ x :: l2 -> id x = i ->
        (forall note, In note (l1 ++ l2) -> id note <> i) ->
        NotesPage.notes st' = l1 ++ l2)
  /\ ((forall note, In note (NotesPage.notes st) -> id note <> i) -> st' = st)
  /\ NotesPage.error st' = NotesPage.error st
  /\ effectsOf (NotesPage.onPayload (NotesPage.DELETE i)) st = [].
Proof.
  destruct st as [u l en fo lo er]. cbn.
  split; [|split; [|split; [|split; reflexivity]]].
  - intros note. rewrite filter_In. split.
    + intros [H N]. split; [exact H|].
      intros E. rewrite E, String.eqb_refl in N. discriminate N.
    + intros [H N]. split; [exact H|].
      destruct (String.eqb (id note) i) eqn:E; [|reflexivity].
      apply String.eqb_eq in E. contradiction.
  - intros l1 x l2 -> Hx H.
    rewrite filter_app. simpl. rewrite Hx, String.eqb_refl. simpl.
    rewrite <- filter_app. now apply filter_id_absent.
  - intros H. f_equal. now apply filter_id_absent.
Qed.

Lemma deleted_absent_witness :
  stateAfter (NotesPage.onPayload (NotesPage.DELETE "C"))
    (NotesPage.mkState (Some "U") [noteA; noteB] None false false None)
  = NotesPage.mkState (Some "U") [noteA; noteB] None false false None.
Proof.
  apply (proj1 (proj2 (proj2 (deleted_removes_or_noop "C"
           (NotesPage.mkState (Some "U") [noteA; noteB] None false false None))))).
  intros note [<-|[<-|[]]]; vm_compute; discriminate.
Defined.

(** ** Authorisation in the single-note view *)

(** C6: with a note loaded, [isAuthor] holds exactly when the session user
    is the owner of the note, and never without a session; it is a function
    of the current session, so it follows every change of the session. *)
Theorem isAuthor_iff_owner (st : SingleNotePage.State) (n : Note) :
  SingleNotePage.note st = Some n ->
  (SingleNotePage.isAuthor st = true <-> SingleNotePage.user st = Some (user_id n))
  /\ (SingleNotePage.user st = None -> SingleNotePage.isAuthor st = false)
  /\ (forall v : option string,
        SingleNotePage.isAuthor (stateAfter (SingleNotePage.setUser v) st) = true
        <-> v = Some (user_id n)).
Proof.
  intros Hn.
  assert (K : forall v st', SingleNotePage.user st' = v ->
                SingleNotePage.note st' = Some n ->
                (SingleNotePage.isAuthor st' = true <-> v = Some (user_id n))).
  { intros v st' Hu Hn'. unfold SingleNotePage.isAuthor. rewrite Hu, Hn'.
    destruct v as [u|].
    - rewrite String.eqb_eq. split; [intros ->; reflexivity|now intros [= ->]].
    - split; discriminate. }
  split; [now apply K|]. split.
  - intros Hu. unfold SingleNotePage.isAuthor. now rewrite Hu.
  - intros v. apply K; [reflexivity|exact Hn].
Qed.

Lemma isAuthor_iff_owner_witness :
  SingleNotePage.isAuthor (viewOfN (Some "V") "t" "c") = true
  <-> SingleNotePage.user (viewOfN (Some "V") "t" "c") = Some (user_id noteV).
Proof.
  apply (proj1 (isAuthor_iff_owner (viewOfN (Some "V") "t" "c") noteV eq_refl)).
Defined.

(** C4, as stated, fails in the list view: its update and delete handlers
    make no ownership check and send the request, here for the row [N] of
    user [V] in the list of user [U]. *)
Lemma list_view_sends_for_foreign_note :
  In noteV (NotesPage.notes listOfU)
  /\ NotesPage.user listOfU <> Some (user_id noteV)
  /\ requestsOf (effectsOf (NotesPage.handleDeleteNote acceptAll (id noteV)) listOfU)
     = [Delete "N" "U"]
  /\ requestsOf (effectsOf
       (NotesPage.handleUpdateNote acceptAll
          (NoteData.mk "t" "c" (Some (id noteV)) None None)) listOfU)
     = [Update [("title", VString "t"); ("content", VString "c");
                ("updated_at", VString "2024-04-06T00:00:00Z")] "N" "U"]
  /\ NotesPage.error
       (stateAfter (NotesPage.handleDeleteNote acceptAll (id noteV)) listOfU) = None.
Proof.
  split; [right; left; reflexivity|].
  split; [discriminate|].
  repeat split.
Qed.

(** C4 (amended): in the single-note view, saving or deleting an existing
    note that the session user does not own has no effect outside the
    component, and sets the permission message when a user is signed in
    (for saving: and title and content are not blank).  The list view makes
    no local check: its handlers send the request, filtered by the id and by
    [user_id] equal to the session user. *)
Theorem nonauthor_requests_blocked_in_single_view :
  (forall (w : World) (st : SingleNotePage.State),
      SingleNotePage.isNewNote st = false ->
      SingleNotePage.isAuthor st = false ->
      effectsOf (SingleNotePage.handleSave w) st = []
      /\ effectsOf (SingleNotePage.handleDelete w) st = []
      /\ (SingleNotePage.user st <> None ->
          JS.trim (SingleNotePage.editedTitle st) <> EmptyString ->
          JS.trim (SingleNotePage.editedContent st) <> EmptyString ->
          SingleNotePage.error (stateAfter (SingleNotePage.handleSave w) st)
          = Some "You don't have permission to edit this note")
      /\ (SingleNotePage.user st <> None ->
          SingleNotePage.note st <> None ->
          SingleNotePage.error (stateAfter (SingleNotePage.handleDelete w) st)
          = Some "You don't have permission to delete this note"))
  /\ (forall (w : World) (st : NotesPage.State) (u i : string),
        NotesPage.user st = Some u ->
        requestsOf (effectsOf (NotesPage.handleDeleteNote w i) st) = [Delete i u])
  /\ (forall (w : World) (st : NotesPage.State) (u i : string) (d : NoteData.t),
        NotesPage.user st = Some u ->
        NoteData.id d = Some i -> i <> EmptyString ->
        requestsOf (effectsOf (NotesPage.handleUpdateNote w d) st)
        = [Update ([("title", VString (NoteData.title d));
                    ("content", VString (NoteData.content d))]
                   ++ field_opt "is_public" (option_map VBool (NoteData.is_public d))
                   ++ field_opt "tags" (option_map VStrings (NoteData.tags d))
                   ++ [("updated_at", VString (now w))])
                  i u]).
Proof.
  split; [|split].
  - intros w st Hnew Hauth.
    unfold effectsOf, stateAfter, SingleNotePage.handleSave,
      SingleNotePage.handleDelete, bind, get.
    rewrite Hnew, Hauth.
    destruct (SingleNotePage.user st) as [u|],
             (SingleNotePage.note st) as [n|];
      destruct (JS.trim (SingleNotePage.editedTitle st)) as [|a t];
      destruct (JS.trim (SingleNotePage.editedContent st)) as [|b c];
      cbn; repeat split; try reflexivity; intros; congruence.
  - intros w st u i Hu.
    unfold effectsOf, NotesPage.handleDeleteNote, bind, get. rewrite Hu. cbn.
    destruct (Reply.error (respond w (Delete i u))); reflexivity.
  - intros w st u i d Hu Hi Hne.
    unfold effectsOf, NotesPage.handleUpdateNote, bind, get. rewrite Hu, Hi.
    destruct i as [|a i]; [congruence|]. cbn.
    match goal with
    | |- context [Reply.error ?r] => destruct (Reply.error r)
    end; reflexivity.
Qed.

Lemma nonauthor_requests_blocked_witness :
  effectsOf (SingleNotePage.handleSave acceptAll) (viewOfN (Some "U") "t" "c") = []
  /\ SingleNotePage.error
       (stateAfter (SingleNotePage.handleSave acceptAll) (viewOfN (Some "U") "t" "c"))
     = Some "You don't have permission to edit this note"
  /\ SingleNotePage.error
       (stateAfter (SingleNotePage.handleDelete acceptAll) (viewOfN (Some "U") "t" "c"))
     = Some "You don't have permission to delete this note"
  /\ requestsOf (effectsOf (NotesPage.handleDeleteNote acceptAll "N") listOfU)
     = [Delete "N" "U"]
  /\ requestsOf (effectsOf
       (NotesPage.handleUpdateNote acceptAll
          (NoteData.mk "t" "c" (Some "N") None None)) listOfU)
     = [Update [("title", VString "t"); ("content", VString "c");
                ("updated_at", VString "2024-04-06T00:00:00Z")] "N" "U"].
Proof.
  destruct (proj1 nonauthor_requests_blocked_in_single_view acceptAll
              (viewOfN (Some "U") "t" "c") eq_refl eq_refl)
    as [Hs [_ [He Hd]]].
  split; [exact Hs|].
  split; [apply He; vm_compute; discriminate|].
  split; [apply Hd; vm_compute; discriminate|].
  split.
  - apply (proj1 (proj2 nonauthor_requests_blocked_in_single_view)).
    reflexivity.
  - apply (proj2 (proj2 nonauthor_requests_blocked_in_single_view) acceptAll
             listOfU "U" "N" (NoteData.mk "t" "c" (Some "N") None None));
      [reflexivity|reflexivity|discriminate].
Defined.

(** ** Validation of a draft *)

(** C5, as stated, fails on what the operation yields: the form drops a
    blank draft without any message, and the save handler without a session
    gives the sign-in message. *)
Lemma blank_create_without_validation_message :
  JS.trim " " = EmptyString
  /\ effectsOf (NoteForm.handleSubmit (NotesPage.handleAddNote acceptAll)
                  noData (formOf " " "text")) listOfU = []
  /\ NotesPage.error
       (stateAfter (NoteForm.handleSubmit (NotesPage.handleAddNote acceptAll)
                      noData (formOf " " "text")) listOfU) = None
  /\ SingleNotePage.error
       (stateAfter (SingleNotePage.handleSave acceptAll) (viewOfNew None " " "text"))
     = Some "You must be logged in to save notes".
Proof. repeat split. Qed.

(** C5 (amended): a draft whose title or content is blank after trimming
    is never sent.  The save handler of the single-note view has no effect
    outside the component and sets "Title and content are required" when a
    user is signed in, and the sign-in message otherwise; the form does not
    call [onSubmit] and leaves the state of its owner as it is, without a
    message. *)
Theorem blank_draft_sends_nothing :
  (forall (w : World) (st : SingleNotePage.State),
      JS.trim (SingleNotePage.editedTitle st) = EmptyString
      \/ JS.trim (SingleNotePage.editedContent st) = EmptyString ->
      effectsOf (SingleNotePage.handleSave w) st = []
      /\ (SingleNotePage.user st <> None ->
          SingleNotePage.error (stateAfter (SingleNotePage.handleSave w) st)
          = Some "Title and content are required")
      /\ (SingleNotePage.user st = None ->
          SingleNotePage.error (stateAfter (SingleNotePage.handleSave w) st)
          = Some "You must be logged in to save notes"))
  /\ (forall (S : Type) (onSubmit : NoteData.t -> Handler S unit)
             (initialData : NoteData.t) (form : NoteForm.State) (owner : S),
        JS.trim (NoteForm.title (NoteForm.note form)) = EmptyString
        \/ JS.trim (NoteForm.content (NoteForm.note form)) = EmptyString ->
        NoteForm.handleSubmit onSubmit initialData form owner = (tt, owner, [])).
Proof.
  split.
  - intros w st Hblank.
    assert (B : negb (JS.truthy (JS.trim (SingleNotePage.editedTitle st)))
                || negb (JS.truthy (JS.trim (SingleNotePage.editedContent st)))
                = true).
    { destruct Hblank as [-> | ->]; [reflexivity|].
      now rewrite orb_true_r. }
    unfold effectsOf, stateAfter, SingleNotePage.handleSave, bind, get.
    destruct (SingleNotePage.user st) as [u|]; [rewrite B|]; cbn;
      repeat split; try reflexivity; intros; congruence.
  - intros S onSubmit initialData form owner Hblank.
    unfold NoteForm.handleSubmit.
    destruct Hblank as [-> | ->]; [reflexivity|].
    now rewrite andb_false_r.
Qed.

Lemma blank_draft_sends_nothing_witness :
  effectsOf (SingleNotePage.handleSave acceptAll) (viewOfNew (Some "U") " " "text") = []
  /\ SingleNotePage.error
       (stateAfter (SingleNotePage.handleSave acceptAll) (viewOfNew (Some "U") " " "text"))
     = Some "Title and content are required"
  /\ NoteForm.handleSubmit (NotesPage.handleAddNote acceptAll) noData
       (formOf "title" EmptyString) listOfU = (tt, listOfU, []).
Proof.
  destruct (proj1 blank_draft_sends_nothing acceptAll
              (viewOfNew (Some "U") " " "text") (or_introl eq_refl))
    as [Hs [He _]].
  split; [exact Hs|].
  split; [apply He; vm_compute; discriminate|].
  apply (proj2 blank_draft_sends_nothing). right. reflexivity.
Defined.

(** ** The failure message of a single-note load *)

(** The message [fetchNote] leaves is a function of the reply to the fetch
    alone. *)
Lemma fetchNote_error (w : World) (st : SingleNotePage.State) :
  SingleNotePage.isAuthChecked st = true ->
  SingleNotePage.isNewNote st = false ->
  SingleNotePage.error (stateAfter (SingleNotePage.fetchNote w) st)
  = match Reply.error (respond w (SelectById (SingleNotePage.params_id st))) with
    | Some noteError =>
        if String.eqb (code noteError) "PGRST116"
        then Some "Note not found" else Some "This note is private"
    | None =>
        match Reply.data (respond w (SelectById (SingleNotePage.params_id st))) with
        | NoteRow _ => None
        | _ => Some "Note not found"
        end
    end.
Proof.
  intros Hc Hn.
  unfold stateAfter, SingleNotePage.fetchNote, bind, get.
  rewrite Hc, Hn. cbn.
  destruct (respond w (SelectById (SingleNotePage.params_id st))) as [d [e|]]; cbn.
  - destruct (String.eqb (code e) "PGRST116"); reflexivity.
  - destruct d as [|n|l|p]; cbn; try reflexivity.
    destruct (Reply.data (respond w (SelectProfile (user_id n)))); reflexivity.
Qed.


(** A route id outside the input syntax of [uuid] makes the fetch fail
    with the error of the cast, and the page shows the message of the other
    branch. *)
Lemma load_of_malformed_id_message
    (uuid_in : string -> bool) (castError : PostgrestError)
    (db : Supabase.Db) (viewer : option string) (other : Request -> Reply.t)
    (clock nd : string) (c : bool) (st : SingleNotePage.State) :
  SingleNotePage.isAuthChecked st = true ->
  SingleNotePage.isNewNote st = false ->
  uuid_in (SingleNotePage.params_id st) = false ->
  code castError <> "PGRST116" ->
  SingleNotePage.error
    (stateAfter
       (SingleNotePage.fetchNote
          (mkWorld viewer (SupabaseUuid.respond uuid_in castError db viewer other)
                   clock c nd)) st)
  = Some "This note is private".
Proof.
  intros Hc Hn Hu Hcode.
  rewrite (fetchNote_error _ st Hc Hn).
  cbn [respond SupabaseUuid.respond]. unfold SupabaseUuid.select_by_id.
  rewrite Hu. cbn [Reply.error].
  apply String.eqb_neq in Hcode. now rewrite Hcode.
Qed.



(** The scenario with a route that is not a uuid: the message differs from
    the one of the private note. *)
Example load_of_malformed_id_scenario :
  SingleNotePage.error
    (stateAfter (SingleNotePage.fetchNote (storeOfV None)) (viewOfRoute "Z" None))
  = Some "This note is private"
  /\ SingleNotePage.error
       (stateAfter (SingleNotePage.fetchNote (storeOfV None))
          (viewOfRoute "7f3c9a52-0b1e-4c6d-9e2a-5d8f1b2c3a4e" None))
     = Some "Note not found".
Proof. split; reflexivity. Qed.

(** ** Tags *)

Lemma lowerChar_idempotent (c : ascii) :
  JS.lowerChar (JS.lowerChar c) = JS.lowerChar c.
Proof. destruct c as [[] [] [] [] [] [] [] []]; reflexivity. Qed.

Lemma toLowerCase_idempotent (s : string) :
  JS.toLowerCase (JS.toLowerCase s) = JS.toLowerCase s.
Proof.
  induction s as [|c s IH]; simpl; [reflexivity|].
  now rewrite lowerChar_idempotent, IH.
Qed.

Lemma includes_false (l : list string) (x : string) :
  JS.includes l x = false -> ~ In x l.
Proof.
  unfold JS.includes. intros H Hin.
  assert (E : existsb (String.eqb x) l = true).
  { apply existsb_exists. exists x. split; [exact Hin|apply String.eqb_refl]. }
  congruence.
Qed.

Lemma NoDup_snoc {A : Type} (l : list A) (x : A) :
  NoDup l -> ~ In x l -> NoDup (l ++ [x]).
Proof.
  intros Hl Hx. induction Hl as [|y l Hy Hl IH]; simpl.
  - constructor; [intros []|constructor].
  - constructor.
    + rewrite in_app_iff. intros [H|[->|[]]]; [now apply Hy|].
      apply Hx. now left.
    + apply IH. intros H. apply Hx. now right.
Qed.

(** Appending the normalised input, under the test of [handleAddTag]. *)
Lemma tagsWellFormed_add (l : list string) (input : string) :
  tagsWellFormed l ->
  JS.truthy (JS.toLowerCase (JS.trim input))
  && negb (JS.includes l (JS.toLowerCase (JS.trim input))) = true ->
  tagsWellFormed (l ++ [JS.toLowerCase (JS.trim input)]).
Proof.
  intros [Hd [He Hl]] H. apply andb_true_iff in H. destruct H as [Ht Hi].
  apply negb_true_iff in Hi. apply includes_false in Hi.
  split; [|split].
  - now apply NoDup_snoc.
  - rewrite in_app_iff. intros [H|[H|[]]]; [now apply He|].
    rewrite H in Ht. discriminate Ht.
  - apply Forall_app. split; [exact Hl|].
    constructor; [apply toLowerCase_idempotent|constructor].
Qed.

Lemma tagsWellFormed_filter (p : string -> bool) (l : list string) :
  tagsWellFormed l -> tagsWellFormed (filter p l).
Proof.
  intros [Hd [He Hl]]. split; [|split].
  - now apply NoDup_filter.
  - intros H. apply filter_In in H. now apply He.
  - rewrite Forall_forall in *. intros x Hx. apply filter_In in Hx. now apply Hl.
Qed.

Lemma Subseq_filter {A : Type} (p : A -> bool) (l : list A) :
  Subseq (filter p l) l.
Proof.
  induction l as [|x l IH]; simpl; [constructor|].
  destruct (p x); now constructor.
Qed.

Lemma removed_tag_absent (t : string) (l : list string) :
  ~ In t (filter (fun tag => negb (String.eqb tag t)) l).
Proof.
  intros H. apply filter_In in H. destruct H as [_ H].
  now rewrite String.eqb_refl in H.
Qed.

(** C9: in the form and in the single-note view, adding a tag keeps a tag
    list without duplicates, without the empty string and in lower case so,
    and puts a new tag last; removing a tag keeps it so, takes the tag out
    and keeps the others in their order.  Adding "Work", "work", "work" to
    the empty list gives the list of "work" alone. *)
Theorem tag_handlers_keep_tags_well_formed :
  (forall st : NoteForm.State,
      let l := NoteForm.tags (NoteForm.note st) in
      let l' := NoteForm.tags (NoteForm.note (NoteForm.handleAddTag st)) in
      tagsWellFormed l ->
      tagsWellFormed l'
      /\ (l' = l \/ l' = l ++ [JS.toLowerCase (JS.trim (NoteForm.tagInput st))])
      /\ forall t : string,
           let l'' := NoteForm.tags (NoteForm.note (NoteForm.handleRemoveTag t st)) in
           tagsWellFormed l'' /\ Subseq l'' l /\ ~ In t l'')
  /\ (forall st : SingleNotePage.State,
        let l := SingleNotePage.editedTags st in
        let l' := SingleNotePage.editedTags
                    (stateAfter SingleNotePage.handleAddTag st) in
        tagsWellFormed l ->
        tagsWellFormed l'
        /\ (l' = l \/ l' = l ++ [JS.toLowerCase (JS.trim (SingleNotePage.tagInput st))])
        /\ forall t : string,
             let l'' := SingleNotePage.editedTags
                          (stateAfter (SingleNotePage.handleRemoveTag t) st) in
             tagsWellFormed l'' /\ Subseq l'' l /\ ~ In t l'')
  /\ NoteForm.tags (NoteForm.note
       (NoteForm.handleAddTag (NoteForm.setTagInput "work"
         (NoteForm.handleAddTag (NoteForm.setTagInput "work"
           (NoteForm.handleAddTag (NoteForm.setTagInput "Work"
             (NoteForm.mkState (NoteForm.mkFormNote "t" "c" false [])
                               EmptyString false false))))))))
     = ["work"]
  /\ SingleNotePage.editedTags
       (stateAfter addWorkThrice (viewOfNew (Some "U") "t" "c"))
     = ["work"].
Proof.
  split; [|split; [|split; reflexivity]].
  - intros st l l' Hwf. split; [|split].
    + unfold l', NoteForm.handleAddTag.
      destruct (JS.truthy _ && negb _) eqn:E; cbn; [|exact Hwf].
      now apply tagsWellFormed_add.
    + unfold l', NoteForm.handleAddTag.
      destruct (JS.truthy _ && negb _); cbn; [right|left]; reflexivity.
    + intros t l''. unfold l''. cbn.
      split; [now apply tagsWellFormed_filter|].
      split; [apply Subseq_filter|apply removed_tag_absent].
  - intros st l l' Hwf. split; [|split].
    + unfold l', stateAfter, SingleNotePage.handleAddTag, bind, get.
      destruct (JS.truthy _ && negb _) eqn:E; cbn; [|exact Hwf].
      now apply tagsWellFormed_add.
    + unfold l', stateAfter, SingleNotePage.handleAddTag, bind, get.
      destruct (JS.truthy _ && negb _); cbn; [right|left]; reflexivity.
    + intros t l''. unfold l''. cbn.
      split; [now apply tagsWellFormed_filter|].
      split; [apply Subseq_filter|apply removed_tag_absent].
Qed.

Lemma tag_handlers_witness :
  tagsWellFormed
    (NoteForm.tags (NoteForm.note
       (NoteForm.handleAddTag
          (NoteForm.mkState (NoteForm.mkFormNote "t" "c" false ["home"])
                            " Work " false false))))
  /\ tagsWellFormed
       (SingleNotePage.editedTags
          (stateAfter SingleNotePage.handleAddTag (viewOfNew (Some "U") "t" "c"))).
Proof.
  split.
  - apply (proj1 tag_handlers_keep_tags_well_formed
             (NoteForm.mkState (NoteForm.mkFormNote "t" "c" false ["home"])
                               " Work " false false)).
    split; [|split].
    + constructor; [intros []|constructor].
    + intros [H|[]]. discriminate H.
    + constructor; [reflexivity|constructor].
  - apply (proj1 (proj2 tag_handlers_keep_tags_well_formed)
             (viewOfNew (Some "U") "t" "c")).
    split; [constructor|split; [intros []|constructor]].
Defined.

(** ** Creation from the list view *)

(** C10: the create handler of the list view sends one insert whose body
    has the keys [title], [content] and [user_id] only, whatever else the
    submitted data holds; the table stores such a body, for its owner, as a
    row with [is_public = false] and no tag. *)
Theorem list_view_create_is_private_untagged
    (w : World) (st : NotesPage.State) (u : string) (d : NoteData.t) :
  NotesPage.user st = Some u ->
  let body := [("title", VString (NoteData.title d));
               ("content", VString (NoteData.content d));
               ("user_id", VString u)] in
  requestsOf (effectsOf (NotesPage.handleAddNote w d) st) = [Insert body]
  /\ lookup "is_public" body = None
  /\ lookup "tags" body = None
  /\ forall (db : Supabase.Db) (uuid clock : string),
       Supabase.insert db (Some u) uuid clock body
       = Some (mkNote uuid u (NoteData.title d) (NoteData.content d) clock
                      (Some false) (Some []) :: db).
Proof.
  intros Hu body.
  split; [|split; [reflexivity|split; [reflexivity|]]].
  - unfold effectsOf, NotesPage.handleAddNote, bind, get. rewrite Hu. cbn.
    match goal with
    | |- context [Reply.error ?r] => destruct (Reply.error r)
    end; reflexivity.
  - intros db uuid clock. unfold Supabase.insert. cbn.
    now rewrite String.eqb_refl.
Qed.

Lemma list_view_create_witness :
  requestsOf (effectsOf
    (NotesPage.handleAddNote acceptAll
       (NoteData.mk "t" "c" None (Some true) (Some ["x"]))) listOfU)
  = [Insert [("title", VString "t"); ("content", VString "c");
             ("user_id", VString "U")]]
  /\ Supabase.insert [] (Some "U") "id1" "2024-04-06T00:00:00Z"
       [("title", VString "t"); ("content", VString "c"); ("user_id", VString "U")]
     = Some [mkNote "id1" "U" "t" "c" "2024-04-06T00:00:00Z" (Some false) (Some [])].
Proof.
  destruct (list_view_create_is_private_untagged acceptAll listOfU "U"
              (NoteData.mk "t" "c" None (Some true) (Some ["x"])) eq_refl)
    as [Hr [_ [_ Hi]]].
  split; [exact Hr|apply Hi].
Defined.

(** * Further properties *)

(** ** Algebra of the change-feed events *)

(** Turns the tests on ids of the goal and context into equations. *)
Ltac case_ids :=
  repeat match goal with
  | |- context [String.eqb ?a ?b] =>
      let E := fresh "E" in
      destruct (String.eqb a b) eqn:E;
      [apply String.eqb_eq in E | apply String.eqb_neq in E]
  | H : context [String.eqb ?a ?b] |- _ =>
      let E := fresh "E" in
      destruct (String.eqb a b) eqn:E;
      [apply String.eqb_eq in E | apply String.eqb_neq in E]
  end.

Lemma update_keeps_ids (new : Note) (l : list Note) :
  map id (NotesPage.applyRemoteEvent (NotesPage.UPDATE new) l) = map id l.
Proof.
  simpl. rewrite map_map. apply map_ext. intros x.
  destruct (String.eqb (id x) (id new)) eqn:E; [|reflexivity].
  apply String.eqb_eq in E. now symmetry.
Qed.

(** Leaving notes out keeps the ids unique. *)
Lemma uniqueIds_filter (keep : Note -> bool) (notes : list Note) :
  uniqueIds notes -> uniqueIds (filter keep notes).
Proof.
  unfold uniqueIds. intros Hu.
  induction notes as [|x rest IH]; [exact Hu|].
  simpl in Hu. apply NoDup_cons_iff in Hu. destruct Hu as [Hx Hrest].
  simpl. destruct (keep x); [|now apply IH].
  simpl. apply NoDup_cons_iff. split; [|now apply IH].
  intros Hin. apply Hx. apply in_map_iff in Hin.
  destruct Hin as [z [Ez Hz]]. apply filter_In in Hz.
  apply in_map_iff. exists z. tauto.
Qed.

(** X1: ids stay unique under every event whose [Inserted] note is new to
    the list, and an [Inserted] note whose id is in the list breaks it. *)
Theorem feed_keeps_ids_unique :
  (forall (e : NotesPage.Payload) (l : list Note),
      uniqueIds l ->
      (isInsert e = true -> ~ In (target e) (map id l)) ->
      uniqueIds (NotesPage.applyRemoteEvent e l))
  /\ (forall (new : Note) (l : list Note),
        In (id new) (map id l) ->
        ~ uniqueIds (NotesPage.applyRemoteEvent (NotesPage.INSERT new) l)).
Proof.
  split.
  - intros e l Hl Hfresh. unfold uniqueIds in *.
    destruct e as [n|n|i].
    + simpl. constructor; [now apply Hfresh|exact Hl].
    + now rewrite update_keeps_ids.
    + now apply (uniqueIds_filter _ l).
  - intros new l Hin Hu. unfold uniqueIds in Hu. simpl in Hu.
    inversion Hu; contradiction.
Qed.

Lemma feed_keeps_ids_unique_witness :
  uniqueIds (NotesPage.applyRemoteEvent (NotesPage.INSERT noteC) [noteA; noteB])
  /\ ~ uniqueIds (NotesPage.applyRemoteEvent (NotesPage.INSERT noteAX) [noteA; noteB]).
Proof.
  split.
  - apply (proj1 feed_keeps_ids_unique).
    + repeat constructor; simpl; intuition discriminate.
    + intros _. simpl. intuition discriminate.
  - apply (proj2 feed_keeps_ids_unique). left. reflexivity.
Defined.

(** X2: two events about different ids, not both [Inserted], can be
    applied in either order. *)
Theorem events_on_different_notes_commute
    (e1 e2 : NotesPage.Payload) (l : list Note) :
  target e1 <> target e2 ->
  isInsert e1 && isInsert e2 = false ->
  NotesPage.applyRemoteEvent e1 (NotesPage.applyRemoteEvent e2 l)
  = NotesPage.applyRemoteEvent e2 (NotesPage.applyRemoteEvent e1 l).
Proof.
  intros Hne Hins.
  destruct e1 as [n1|n1|i1], e2 as [n2|n2|i2]; simpl in *;
    try discriminate Hins;
    try (case_ids; solve [reflexivity | congruence]);
    induction l as [|x l IH]; simpl; try reflexivity;
    case_ids; simpl; case_ids; simpl; congruence.
Qed.

Lemma events_commute_witness :
  NotesPage.applyRemoteEvent (NotesPage.UPDATE noteAX)
    (NotesPage.applyRemoteEvent (NotesPage.DELETE "B") [noteC; noteA; noteB])
  = NotesPage.applyRemoteEvent (NotesPage.DELETE "B")
      (NotesPage.applyRemoteEvent (NotesPage.UPDATE noteAX) [noteC; noteA; noteB]).
Proof.
  apply events_on_different_notes_commute; [vm_compute; discriminate|reflexivity].
Defined.

Lemma update_absent (new : Note) (l : list Note) :
  ~ In (id new) (map id l) ->
  NotesPage.applyRemoteEvent (NotesPage.UPDATE new) l = l.
Proof.
  intros H. simpl. rewrite <- (map_id l) at 2. apply map_ext_in.
  intros x Hx. case_ids; [|reflexivity].
  destruct H. rewrite <- E. now apply in_map.
Qed.

(** X3: on a list without the id, an [Inserted] note followed by its
    [Deleted] event gives the list back, and followed by an [Updated] row
    of its id gives the list with that row inserted. *)
Theorem inserted_then_changed (new : Note) (l : list Note) :
  ~ In (id new) (map id l) ->
  NotesPage.applyRemoteEvents
    [NotesPage.INSERT new; NotesPage.DELETE (id new)] l = l
  /\ forall row' : Note,
       id row' = id new ->
       NotesPage.applyRemoteEvents
         [NotesPage.INSERT new; NotesPage.UPDATE row'] l
       = NotesPage.applyRemoteEvent (NotesPage.INSERT row') l.
Proof.
  intros H. split.
  - cbn. rewrite String.eqb_refl. simpl.
    apply filter_id_absent. intros x Hx E. apply H. rewrite <- E.
    now apply in_map.
  - intros row' E. rewrite <- E in H. cbn.
    rewrite <- E, String.eqb_refl. f_equal.
    exact (update_absent row' l H).
Qed.

Lemma inserted_then_changed_witness :
  NotesPage.applyRemoteEvents
    [NotesPage.INSERT noteC; NotesPage.DELETE (id noteC)] [noteA; noteB]
  = [noteA; noteB].
Proof.
  apply (inserted_then_changed noteC [noteA; noteB]).
  simpl. intuition discriminate.
Defined.

(** X4: for one id the later event decides: a second [Updated] row
    replaces the first, a [Deleted] event after an [Updated] one removes
    the note all the same, and an [Updated] event that arrives after the
    [Deleted] one, or for an id that is not in the list, changes nothing. *)
Theorem later_event_wins (l : list Note) :
  (forall n1 n2 : Note, id n1 = id n2 ->
      NotesPage.applyRemoteEvents [NotesPage.UPDATE n1; NotesPage.UPDATE n2] l
      = NotesPage.applyRemoteEvent (NotesPage.UPDATE n2) l)
  /\ (forall n : Note,
        NotesPage.applyRemoteEvents [NotesPage.UPDATE n; NotesPage.DELETE (id n)] l
        = NotesPage.applyRemoteEvent (NotesPage.DELETE (id n)) l)
  /\ (forall n : Note,
        NotesPage.applyRemoteEvents [NotesPage.DELETE (id n); NotesPage.UPDATE n] l
        = NotesPage.applyRemoteEvent (NotesPage.DELETE (id n)) l)
  /\ (forall n : Note, ~ In (id n) (map id l) ->
        NotesPage.applyRemoteEvent (NotesPage.UPDATE n) l = l).
Proof.
  split; [|split; [|split]].
  - intros n1 n2 E. cbn. rewrite map_map. apply map_ext. intros x.
    rewrite E. case_ids; try reflexivity; congruence.
  - intros n. cbn. induction l as [|x l IH]; simpl; [reflexivity|].
    case_ids; simpl; case_ids; simpl; congruence.
  - intros n. cbn. induction l as [|x l IH]; simpl; [reflexivity|].
    case_ids; simpl; case_ids; simpl; congruence.
  - intros n. apply update_absent.
Qed.

Lemma later_event_wins_witness :
  NotesPage.applyRemoteEvents [NotesPage.UPDATE noteA; NotesPage.UPDATE noteAX]
    [noteC; noteA; noteB]
  = NotesPage.applyRemoteEvent (NotesPage.UPDATE noteAX) [noteC; noteA; noteB]
  /\ NotesPage.applyRemoteEvent (NotesPage.UPDATE noteC) [noteA; noteB]
     = [noteA; noteB].
Proof.
  split.
  - apply (proj1 (later_event_wins [noteC; noteA; noteB])). reflexivity.
  - apply (proj2 (proj2 (proj2 (later_event_wins [noteA; noteB])))).
    simpl. intuition discriminate.
Defined.

Lemma onNoteAll_closed (s : list NotesPage.Payload) (x : Note) :
  onNoteAll s x
  = if deletes s (id x) then None
    else Some (JS.orDefault (lastUpdate s (id x)) x).
Proof.
  revert x. induction s as [|e s IH]; intros x; [reflexivity|].
  destruct e as [n|n|j]; simpl.
  - apply IH.
  - rewrite IH. destruct (String.eqb (id x) (id n)) eqn:E.
    + apply String.eqb_eq in E. rewrite <- E.
      destruct (deletes s (id x)); [reflexivity|].
      destruct (lastUpdate s (id x)); reflexivity.
    + destruct (deletes s (id x)); [reflexivity|].
      destruct (lastUpdate s (id x)); reflexivity.
  - destruct (String.eqb (id x) j); simpl; [reflexivity|apply IH].
Qed.

Lemma filterMap_app {A B : Type} (f : A -> option B) (l1 l2 : list A) :
  filterMap f (l1 ++ l2) = filterMap f l1 ++ filterMap f l2.
Proof.
  induction l1 as [|a l1 IH]; simpl; [reflexivity|].
  destruct (f a); simpl; now rewrite IH.
Qed.

(** The notes in the list before the events are treated one by one,
    whatever the events insert in front of them. *)
Lemma applyRemoteEvents_app (s : list NotesPage.Payload) (l1 l2 : list Note) :
  NotesPage.applyRemoteEvents s (l1 ++ l2)
  = NotesPage.applyRemoteEvents s l1 ++ filterMap (onNoteAll s) l2.
Proof.
  revert l1 l2. induction s as [|e s IH]; intros l1 l2.
  - simpl. now rewrite filterMap_Some.
  - rewrite !applyRemoteEvents_cons. destruct e as [n|n|i]; simpl.
    + apply (IH (n :: l1) l2).
    + rewrite map_app, IH. f_equal. apply filterMap_map.
    + rewrite filter_app, IH. f_equal. rewrite filterMap_filter.
      apply filterMap_ext. intros a.
      destruct (String.eqb (id a) i); reflexivity.
Qed.

(** X5: the list after any sequence of events is what the sequence leaves
    of the notes it inserted itself, followed by the notes of the list
    before: a note is gone when some [Deleted] event of the sequence names
    its id, is the row of the last [Updated] event for its id otherwise,
    and is itself when there is none.  A sequence without [Inserted] events
    adds nothing in front. *)
Theorem feed_closed_form (s : list NotesPage.Payload) (l : list Note) :
  NotesPage.applyRemoteEvents s l
  = NotesPage.applyRemoteEvents s []
    ++ filterMap (fun x => if deletes s (id x) then None
                           else Some (JS.orDefault (lastUpdate s (id x)) x)) l
  /\ ((forall e, In e s -> isInsert e = false) ->
      NotesPage.applyRemoteEvents s [] = []).
Proof.
  split.
  - change l with ([] ++ l) at 1.
    rewrite (applyRemoteEvents_app s [] l). f_equal.
    apply filterMap_ext. apply onNoteAll_closed.
  - intros H. induction s as [|e s IH]; [reflexivity|].
    rewrite applyRemoteEvents_cons.
    assert (He := H e (or_introl eq_refl)).
    destruct e as [n|n|i]; [discriminate He| |]; simpl;
      apply IH; intros e' He'; apply H; now right.
Qed.

Lemma feed_closed_form_witness :
  NotesPage.applyRemoteEvents
    [NotesPage.UPDATE noteAX; NotesPage.DELETE "B"] [] = [].
Proof.
  apply (proj2 (feed_closed_form
                  [NotesPage.UPDATE noteAX; NotesPage.DELETE "B"] [])).
  intros e [<-|[<-|[]]]; reflexivity.
Defined.

Lemma forallb_filter_true {A : Type} (q p : A -> bool) (l : list A) :
  forallb q l = true -> forallb q (filter p l) = true.
Proof.
  induction l as [|a l IH]; simpl; [reflexivity|].
  intros H. apply andb_true_iff in H. destruct H as [Ha Hl].
  destruct (p a); simpl; [rewrite Ha|]; now apply IH.
Qed.

Lemma forallb_map_in {A B : Type} (f : A -> B) (q : B -> bool) (q' : A -> bool)
    (l : list A) :
  (forall x, In x l -> q (f x) = q' x) ->
  forallb q (map f l) = forallb q' l.
Proof.
  induction l as [|a l IH]; intros H; simpl; [reflexivity|].
  rewrite (H a (or_introl eq_refl)), IH; [reflexivity|].
  intros x Hx. apply H. now right.
Qed.

Lemma newestFirst_map (f : Note -> Note) (l : list Note) :
  (forall x, In x l -> created_at (f x) = created_at x) ->
  newestFirst (map f l) = newestFirst l.
Proof.
  induction l as [|a l IH]; intros H; simpl; [reflexivity|].
  rewrite IH by (intros x Hx; apply H; now right).
  f_equal. apply forallb_map_in.
  intros x Hx. unfold notOlder.
  now rewrite (H a (or_introl eq_refl)), (H x (or_intror Hx)).
Qed.

(** X6: a [Deleted] event keeps a list that is newest first so, and so
    does an [Updated] event whose row has the creation time of the notes
    it replaces. *)
Theorem feed_keeps_newest_first (l : list Note) :
  newestFirst l = true ->
  (forall i : string,
      newestFirst (NotesPage.applyRemoteEvent (NotesPage.DELETE i) l) = true)
  /\ (forall new : Note,
        (forall x, In x l -> id x = id new -> created_at x = created_at new) ->
        newestFirst (NotesPage.applyRemoteEvent (NotesPage.UPDATE new) l) = true).
Proof.
  intros Hl. split.
  - intros i. simpl. induction l as [|a l IH]; simpl; [reflexivity|].
    simpl in Hl. apply andb_true_iff in Hl. destruct Hl as [Ha Hl].
    destruct (negb (String.eqb (id a) i)); simpl; [|now apply IH].
    rewrite (IH Hl), andb_true_r. now apply forallb_filter_true.
  - intros new H. simpl. rewrite newestFirst_map; [exact Hl|].
    intros x Hx. case_ids; [|reflexivity]. symmetry. now apply H.
Qed.

Lemma feed_keeps_newest_first_witness :
  newestFirst (NotesPage.applyRemoteEvent (NotesPage.UPDATE noteAX)
                 [noteC; noteA; noteB]) = true.
Proof.
  apply (proj2 (feed_keeps_newest_first [noteC; noteA; noteB] eq_refl)).
  intros x [<-|[<-|[<-|[]]]]; vm_compute; intros E;
    try discriminate E; reflexivity.
Defined.

(** ** The handlers of the list view *)

(** Splits on the answers of the backend that a handler reads. *)
Ltac case_replies :=
  repeat match goal with
  | |- context [Reply.error ?r] => destruct (Reply.error r)
  | |- context [Reply.data ?r] => destruct (Reply.data r)
  end.

(** X7: the create, update and delete handlers of the list view never
    touch the note list or the session user, whatever the backend answers;
    the list changes through [fetchNotes] and the feed only. *)
Theorem list_handlers_leave_notes (w : World) (st : NotesPage.State)
    (d : NoteData.t) (i : string) (n : Note) :
  let same (h : Handler NotesPage.State unit) :=
    NotesPage.notes (stateAfter h st) = NotesPage.notes st
    /\ NotesPage.user (stateAfter h st) = NotesPage.user st in
  same (NotesPage.handleAddNote w d)
  /\ same (NotesPage.handleUpdateNote w d)
  /\ same (NotesPage.handleDeleteNote w i)
  /\ same (NotesPage.startEditing n).
Proof.
  destruct st as [[u|] l en fo lo er]; destruct d as [t c [j|] p g];
    try destruct j as [|a j];
    cbv beta zeta; unfold stateAfter, NotesPage.handleAddNote,
      NotesPage.handleUpdateNote, NotesPage.handleDeleteNote,
      NotesPage.startEditing, bind, get; cbn;
    case_replies; cbn; repeat split.
Qed.

(** X8: every request that a handler of either page sends for a signed-in
    user names that user as the owner, and without a session user the
    handlers of the list view do nothing at all. *)
Theorem requests_name_the_session_user :
  (forall (w : World) (st : NotesPage.State) (u : string) (d : NoteData.t)
          (i : string),
      NotesPage.user st = Some u ->
      let scoped (h : Handler NotesPage.State unit) :=
        forallb (scopedTo u) (requestsOf (effectsOf h st)) = true in
      scoped (NotesPage.fetchNotes w)
      /\ scoped (NotesPage.handleAddNote w d)
      /\ scoped (NotesPage.handleUpdateNote w d)
      /\ scoped (NotesPage.handleDeleteNote w i))
  /\ (forall (w : World) (st : SingleNotePage.State) (u : string),
        SingleNotePage.user st = Some u ->
        forallb (scopedTo u) (requestsOf (effectsOf (SingleNotePage.handleSave w) st))
        = true
        /\ forallb (scopedTo u)
             (requestsOf (effectsOf (SingleNotePage.handleDelete w) st)) = true)
  /\ (forall (w : World) (st : NotesPage.State) (d : NoteData.t) (i : string),
        NotesPage.user st = None ->
        NotesPage.fetchNotes w st = (tt, st, [])
        /\ NotesPage.handleAddNote w d st = (tt, st, [])
        /\ NotesPage.handleUpdateNote w d st = (tt, st, [])
        /\ NotesPage.handleDeleteNote w i st = (tt, st, [])).
Proof.
  split; [|split].
  - intros w st u d i Hu. cbv beta zeta.
    unfold effectsOf, NotesPage.fetchNotes, NotesPage.handleAddNote,
      NotesPage.handleUpdateNote, NotesPage.handleDeleteNote, bind, get.
    rewrite Hu. destruct d as [t c [j|] p g]; try destruct j as [|a j]; cbn;
      case_replies; cbn; rewrite ?String.eqb_refl; repeat split.
  - intros w st u Hu.
    unfold effectsOf, SingleNotePage.handleSave, SingleNotePage.handleDelete,
      bind, get.
    rewrite Hu.
    destruct (SingleNotePage.note st) as [n|];
      destruct (negb (JS.truthy (JS.trim (SingleNotePage.editedTitle st)))
                || negb (JS.truthy (JS.trim (SingleNotePage.editedContent st))));
      destruct (SingleNotePage.isNewNote st);
      destruct (SingleNotePage.isAuthor st);
      destruct (confirmed w); cbn;
      case_replies; cbn; rewrite ?String.eqb_refl; repeat split.
  - intros w st d i Hu.
    unfold NotesPage.fetchNotes, NotesPage.handleAddNote,
      NotesPage.handleUpdateNote, NotesPage.handleDeleteNote, bind, get.
    rewrite Hu. destruct (NoteData.id d); repeat split.
Qed.

Lemma requests_name_the_session_user_witness :
  forallb (scopedTo "U")
    (requestsOf (effectsOf (NotesPage.handleDeleteNote acceptAll "N") listOfU)) = true
  /\ forallb (scopedTo "V")
       (requestsOf (effectsOf (SingleNotePage.handleSave acceptAll)
                      (viewOfN (Some "V") "t" "c"))) = true
  /\ NotesPage.handleDeleteNote acceptAll "N" listInitial = (tt, listInitial, []).
Proof.
  split; [|split].
  - apply (proj1 requests_name_the_session_user acceptAll listOfU "U"
             noData "N" eq_refl).
  - apply (proj1 (proj2 requests_name_the_session_user) acceptAll
             (viewOfN (Some "V") "t" "c") "V" eq_refl).
  - apply (proj2 (proj2 requests_name_the_session_user) acceptAll listInitial
             noData "N" eq_refl).
Defined.

(** X9: [fetchNotes] for a signed-in user sends the one select of the
    user's notes and ends with [isLoading] off; when the backend answers
    with an error the list is kept and the failure message set, otherwise
    the list is replaced by the rows of the answer (none when the answer
    has no rows) and the error cleared. *)
Theorem fetchNotes_outcome (w : World) (st : NotesPage.State) (u : string) :
  NotesPage.user st = Some u ->
  let st' := stateAfter (NotesPage.fetchNotes w) st in
  let r := respond w (SelectOwned u) in
  effectsOf (NotesPage.fetchNotes w) st = [Sent (SelectOwned u)]
  /\ NotesPage.isLoading st' = false
  /\ (Reply.error r <> None ->
      NotesPage.notes st' = NotesPage.notes st
      /\ NotesPage.error st' = Some "Failed to load notes. Please try again.")
  /\ (Reply.error r = None ->
      NotesPage.error st' = None
      /\ NotesPage.notes st'
         = match Reply.data r with NoteRows l => l | _ => [] end).
Proof.
  intros Hu. cbv zeta.
  unfold effectsOf, stateAfter, NotesPage.fetchNotes, bind, get.
  rewrite Hu. cbn.
  destruct (Reply.error (respond w (SelectOwned u))); cbn;
    repeat split; intros; congruence.
Qed.

Lemma fetchNotes_outcome_witness :
  NotesPage.notes (stateAfter (NotesPage.fetchNotes acceptAll) listOfU) = []
  /\ NotesPage.isLoading (stateAfter (NotesPage.fetchNotes acceptAll) listOfU) = false.
Proof.
  destruct (fetchNotes_outcome acceptAll listOfU "U" eq_refl)
    as [_ [Hl [_ Hok]]].
  split; [|exact Hl].
  destruct (Hok eq_refl) as [_ Hn]. exact Hn.
Defined.

(** X10: submitting the form of the note being edited, with title and
    content not blank, sends one update: the values of the form as they
    are (not trimmed), the time of the click, filtered by the id of the
    note being edited and by the session user. *)
Theorem edit_form_sends_scoped_update (w : World) (st : NotesPage.State)
    (form : NoteForm.State) (n : Note) (u : string) :
  NotesPage.user st = Some u ->
  NotesPage.editingNote st = Some n ->
  id n <> EmptyString ->
  JS.trim (NoteForm.title (NoteForm.note form)) <> EmptyString ->
  JS.trim (NoteForm.content (NoteForm.note form)) <> EmptyString ->
  requestsOf (effectsOf (submitEdit w form) st)
  = [Update [("title", VString (NoteForm.title (NoteForm.note form)));
             ("content", VString (NoteForm.content (NoteForm.note form)));
             ("is_public", VBool (NoteForm.is_public (NoteForm.note form)));
             ("tags", VStrings (NoteForm.tags (NoteForm.note form)));
             ("updated_at", VString (now w))]
            (id n) u].
Proof.
  intros Hu Hn Hid Ht Hc.
  unfold effectsOf, submitEdit, NoteForm.handleSubmit. rewrite Hn.
  destruct (JS.trim (NoteForm.title (NoteForm.note form))); [congruence|].
  destruct (JS.trim (NoteForm.content (NoteForm.note form))); [congruence|].
  cbn [JS.truthy andb].
  unfold NotesPage.handleUpdateNote, bind, get. rewrite Hu. cbn.
  destruct (id n) as [|ch rest]; [congruence|]. cbn.
  case_replies; reflexivity.
Qed.

Lemma edit_form_sends_scoped_update_witness :
  requestsOf (effectsOf
    (submitEdit acceptAll (formOf " Title " "text"))
    (NotesPage.mkState (Some "U") [noteA; noteB] (Some noteA) false false None))
  = [Update [("title", VString " Title "); ("content", VString "text");
             ("is_public", VBool true); ("tags", VStrings ["x"]);
             ("updated_at", VString "2024-04-06T00:00:00Z")] "A" "U"].
Proof.
  apply (edit_form_sends_scoped_update acceptAll
           (NotesPage.mkState (Some "U") [noteA; noteB] (Some noteA) false false None)
           (formOf " Title " "text") noteA "U" eq_refl eq_refl);
    vm_compute; discriminate.
Defined.

(** ** Loading in the single-note view *)

(** A load that finds the note. *)
Lemma fetchNote_found (w : World) (st : SingleNotePage.State) (n : Note) :
  SingleNotePage.isAuthChecked st = true ->
  SingleNotePage.isNewNote st = false ->
  respond w (SelectById (SingleNotePage.params_id st)) = Reply.mk (NoteRow n) None ->
  SingleNotePage.fetchNote w st
  = (tt,
     SingleNotePage.mkState (SingleNotePage.params_id st) (SingleNotePage.user st)
       true (Some n)
       (match Reply.data (respond w (SelectProfile (user_id n))) with
        | ProfileRow p => Some p
        | _ => SingleNotePage.profile st
        end)
       false None (SingleNotePage.mode st) (title n) (content n)
       (JS.orDefault (is_public n) false) (JS.orDefault (tags n) [])
       (SingleNotePage.tagInput st) (SingleNotePage.isSaving st)
       (SingleNotePage.isDeleting st) (SingleNotePage.showMenu st),
     [Sent (SelectById (SingleNotePage.params_id st));
      Sent (SelectProfile (user_id n))]).
Proof.
  intros Hc Hn Hr.
  unfold SingleNotePage.fetchNote, bind, get. rewrite Hc, Hn. cbn.
  rewrite Hr. cbn. rewrite Hc.
  destruct (Reply.data (respond w (SelectProfile (user_id n)))); reflexivity.
Qed.

(** A load that the backend answers with the error of an empty result. *)
Lemma fetchNote_missing (w : World) (st : SingleNotePage.State) :
  SingleNotePage.isAuthChecked st = true ->
  SingleNotePage.isNewNote st = false ->
  respond w (SelectById (SingleNotePage.params_id st)) = Supabase.single [] ->
  SingleNotePage.fetchNote w st
  = (tt,
     SingleNotePage.mkState (SingleNotePage.params_id st) (SingleNotePage.user st)
       true (SingleNotePage.note st) (SingleNotePage.profile st)
       false (Some "Note not found") (SingleNotePage.mode st)
       (SingleNotePage.editedTitle st) (SingleNotePage.editedContent st)
       (SingleNotePage.editedIsPublic st) (SingleNotePage.editedTags st)
       (SingleNotePage.tagInput st) (SingleNotePage.isSaving st)
       (SingleNotePage.isDeleting st) (SingleNotePage.showMenu st),
     [Sent (SelectById (SingleNotePage.params_id st))]).
Proof.
  intros Hc Hn Hr.
  unfold SingleNotePage.fetchNote, bind, get. rewrite Hc, Hn. cbn.
  rewrite Hr. cbn. rewrite Hc. reflexivity.
Qed.

(** Before the auth check [fetchNote] returns at once. *)
Lemma fetchNote_unchecked (w : World) (st : SingleNotePage.State) :
  SingleNotePage.isAuthChecked st = false ->
  SingleNotePage.fetchNote w st = (tt, st, []).
Proof.
  intros H. unfold SingleNotePage.fetchNote, bind, get. now rewrite H.
Qed.

(** The first renders outside the new-note route: one load, as the session
    user. *)
Lemma singleMount_existing (w : World) (route : string) :
  String.eqb route "new" = false ->
  singleMount w (singleInitial route)
  = SingleNotePage.fetchNote w
      (SingleNotePage.mkState route (session w) true None None true None
         SingleNotePage.preview EmptyString EmptyString false [] EmptyString
         false false false).
Proof.
  intros Hr.
  unfold singleMount. unfold bind at 1.
  rewrite (fetchNote_unchecked w (singleInitial route) eq_refl).
  unfold SingleNotePage.getUser, bind, get, SingleNotePage.isNewNote.
  cbn -[SingleNotePage.fetchNote String.eqb]. rewrite Hr.
  destruct (session w) as [u|]; cbn -[SingleNotePage.fetchNote];
    destruct (SingleNotePage.fetchNote w _) as [[[] st'] out]; reflexivity.
Qed.

Lemma filter_id_fresh (p : Note -> bool) (i : string) (db : list Note) :
  ~ In i (map id db) ->
  filter (fun x => p x && String.eqb (id x) i) db = [].
Proof.
  induction db as [|z db IH]; intros H; [reflexivity|]. simpl.
  destruct (String.eqb (id z) i) eqn:E.
  - apply String.eqb_eq in E. destruct H. left. exact E.
  - rewrite andb_false_r. apply IH. intros Hin. apply H. now right.
Qed.

(** With unique ids, the rows a single-row fetch selects. *)
Lemma select_by_id_unique (db : Supabase.Db) (uid : option string) (r : Note) :
  uniqueIds db -> In r db ->
  Supabase.select_by_id db uid (id r)
  = if Supabase.can_select uid r then Reply.mk (NoteRow r) None
    else Supabase.single [].
Proof.
  intros Hu Hin.
  assert (F : filter (fun x => Supabase.can_select uid x && String.eqb (id x) (id r)) db
              = if Supabase.can_select uid r then [r] else []).
  { unfold uniqueIds in Hu. induction db as [|x db IH]; [destruct Hin|].
    simpl in Hu. inversion Hu as [|y l' Hx Hd]; subst. simpl.
    destruct Hin as [->|Hin].
    - rewrite String.eqb_refl, andb_true_r.
      rewrite (filter_id_fresh (Supabase.can_select uid) (id r) db Hx).
      destruct (Supabase.can_select uid r); reflexivity.
    - destruct (String.eqb (id x) (id r)) eqn:E.
      + apply String.eqb_eq in E. destruct Hx. rewrite E. now apply in_map.
      + rewrite andb_false_r. now apply IH. }
  unfold Supabase.select_by_id. rewrite F.
  destruct (Supabase.can_select uid r); reflexivity.
Qed.

(** X11: a visitor who opens the page of a note of a table with unique ids
    gets the note exactly when it is public or the visitor's own: then the
    note is shown, the edit fields hold its values, and the delete button
    and mode toggle are there exactly for the owner, whatever the profile
    query answers.  Otherwise the error screen says "Note not found" and no
    profile is asked for. *)
Theorem page_shows_note_iff_visible
    (db : Supabase.Db) (viewer : option string) (other : Request -> Reply.t)
    (clock nd : string) (c : bool) (r : Note) :
  let w := mkWorld viewer (Supabase.respond db viewer other) clock c nd in
  let st' := stateAfter (singleMount w) (singleInitial (id r)) in
  uniqueIds db -> In r db -> id r <> "new" ->
  (Supabase.can_select viewer r = true ->
     SingleNoteView.screen st' = SingleNoteView.NoteScreen
     /\ SingleNotePage.note st' = Some r
     /\ SingleNotePage.editedTitle st' = title r
     /\ SingleNotePage.editedContent st' = content r
     /\ SingleNotePage.editedIsPublic st' = JS.orDefault (is_public r) false
     /\ SingleNotePage.editedTags st' = JS.orDefault (tags r) []
     /\ SingleNoteView.showsEditor st' = false
     /\ SingleNoteView.showsDeleteButton st' = Supabase.own_row viewer r
     /\ SingleNoteView.showsModeToggle st' = Supabase.own_row viewer r)
  /\ (Supabase.can_select viewer r = false ->
        SingleNoteView.screen st' = SingleNoteView.ErrorScreen "Note not found"
        /\ SingleNotePage.note st' = None
        /\ requestsOf (effectsOf (singleMount w) (singleInitial (id r)))
           = [SelectById (id r)]).
Proof.
  intros w st' Hu Hin Hnew.
  assert (Hroute : String.eqb (id r) "new" = false) by now apply String.eqb_neq.
  assert (Hsel : respond w (SelectById (id r))
                 = if Supabase.can_select viewer r then Reply.mk (NoteRow r) None
                   else Supabase.single []).
  { unfold w. cbn [respond Supabase.respond]. now apply select_by_id_unique. }
  unfold st', stateAfter, effectsOf.
  rewrite (singleMount_existing w (id r) Hroute).
  split; intros Hv; rewrite Hv in Hsel.
  - match goal with
    | |- context [SingleNotePage.fetchNote w ?s] =>
        rewrite (fetchNote_found w s r eq_refl Hroute Hsel)
    end.
    unfold SingleNoteView.screen, SingleNoteView.showsEditor,
      SingleNoteView.showsDeleteButton, SingleNoteView.showsModeToggle,
      SingleNotePage.isAuthor, SingleNotePage.isNewNote, Supabase.own_row.
    cbn -[String.eqb]. rewrite Hroute.
    destruct viewer as [v|]; cbn -[String.eqb];
      rewrite ?andb_true_r; repeat split.
  - match goal with
    | |- context [SingleNotePage.fetchNote w ?s] =>
        rewrite (fetchNote_missing w s eq_refl Hroute Hsel)
    end.
    unfold SingleNoteView.screen, SingleNotePage.isNewNote.
    cbn -[String.eqb]. rewrite Hroute. repeat split.
Qed.

Lemma page_shows_note_iff_visible_witness :
  SingleNoteView.screen
    (stateAfter
       (singleMount (mkWorld None (Supabase.respond [noteA; noteV] None (respond acceptAll))
                             "2024-04-06T00:00:00Z" true "null"))
       (singleInitial (id noteV)))
  = SingleNoteView.ErrorScreen "Note not found".
Proof.
  apply (proj2 (page_shows_note_iff_visible [noteA; noteV] None (respond acceptAll)
                  "2024-04-06T00:00:00Z" "null" true noteV
                  ltac:(repeat constructor; simpl; intuition discriminate)
                  ltac:(right; left; reflexivity)
                  ltac:(vm_compute; discriminate))
               eq_refl).
Defined.

(** X12: opening the new-note route sends no request.  Without a session
    it pushes the sign-in route (from both effects) and stays on the
    skeleton; with a session it shows the empty editor in edit mode, and,
    no note being loaded, not the save button. *)
Theorem new_note_route_mount (w : World) :
  let st' := stateAfter (singleMount w) (singleInitial "new") in
  requestsOf (effectsOf (singleMount w) (singleInitial "new")) = []
  /\ (session w = None ->
      effectsOf (singleMount w) (singleInitial "new")
      = [Pushed "/sign-in"; Pushed "/sign-in"]
      /\ SingleNoteView.screen st' = SingleNoteView.Skeleton)
  /\ (session w <> None ->
      effectsOf (singleMount w) (singleInitial "new") = []
      /\ SingleNotePage.user st' = session w
      /\ SingleNoteView.screen st' = SingleNoteView.NoteScreen
      /\ SingleNotePage.mode st' = SingleNotePage.edit
      /\ SingleNoteView.showsEditor st' = true
      /\ SingleNoteView.showsSaveButton st' = false).
Proof.
  cbv zeta. unfold effectsOf, stateAfter, singleMount, bind.
  rewrite (fetchNote_unchecked w (singleInitial "new") eq_refl).
  unfold SingleNotePage.getUser, SingleNotePage.fetchNote, bind, get.
  destruct (session w) as [u|]; cbn; repeat split; intros; congruence.
Qed.

Lemma new_note_route_mount_witness :
  SingleNoteView.showsSaveButton
    (stateAfter (singleMount acceptAll) (singleInitial "new")) = false
  /\ effectsOf (singleMount (mkWorld None (respond acceptAll) "now" true "null"))
       (singleInitial "new")
     = [Pushed "/sign-in"; Pushed "/sign-in"].
Proof.
  split.
  - apply (proj2 (proj2 (new_note_route_mount acceptAll))). discriminate.
  - apply (proj1 (proj2 (new_note_route_mount
                           (mkWorld None (respond acceptAll) "now" true "null")))).
    reflexivity.
Defined.

(** ** Saving and deleting in the single-note view *)

(** X13: when the author saves an existing note with title and content not
    blank, one update is sent, filtered by the route id and the session
    user.  If the backend accepts it, the note held by the page takes the
    edited title, content, visibility and tags and keeps its id, owner and
    creation time, the page goes to preview and the user is still the
    author; if not, note and mode stay and the failure message is set.
    [isSaving] is off afterwards in both cases. *)
Theorem author_save_outcome (w : World) (st : SingleNotePage.State)
    (u : string) (n : Note) :
  SingleNotePage.user st = Some u ->
  SingleNotePage.note st = Some n ->
  user_id n = u ->
  SingleNotePage.isNewNote st = false ->
  JS.trim (SingleNotePage.editedTitle st) <> EmptyString ->
  JS.trim (SingleNotePage.editedContent st) <> EmptyString ->
  let body := [("title", VString (SingleNotePage.editedTitle st));
               ("content", VString (SingleNotePage.editedContent st));
               ("updated_at", VString (now w));
               ("is_public", VBool (SingleNotePage.editedIsPublic st));
               ("tags", VStrings (SingleNotePage.editedTags st))] in
  let r := respond w (Update body (SingleNotePage.params_id st) u) in
  let st' := stateAfter (SingleNotePage.handleSave w) st in
  effectsOf (SingleNotePage.handleSave w) st
  = [Sent (Update body (SingleNotePage.params_id st) u)]
  /\ SingleNotePage.isSaving st' = false
  /\ (Reply.error r = None ->
      SingleNotePage.note st'
      = Some (mkNote (id n) (user_id n) (SingleNotePage.editedTitle st)
                     (SingleNotePage.editedContent st) (created_at n)
                     (Some (SingleNotePage.editedIsPublic st))
                     (Some (SingleNotePage.editedTags st)))
      /\ SingleNotePage.mode st' = SingleNotePage.preview
      /\ SingleNotePage.error st' = None
      /\ SingleNotePage.isAuthor st' = true)
  /\ (Reply.error r <> None ->
      SingleNotePage.note st' = SingleNotePage.note st
      /\ SingleNotePage.mode st' = SingleNotePage.mode st
      /\ SingleNotePage.error st' = Some "Failed to save note").
Proof.
  intros Hu Hn Ho Hnew Ht Hc. cbv zeta.
  unfold effectsOf, stateAfter, SingleNotePage.handleSave, bind, get.
  assert (Ha : SingleNotePage.isAuthor st = true).
  { unfold SingleNotePage.isAuthor. rewrite Hu, Hn, Ho. apply String.eqb_refl. }
  rewrite Hu, Hnew, Ha.
  destruct (JS.trim (SingleNotePage.editedTitle st)); [congruence|].
  destruct (JS.trim (SingleNotePage.editedContent st)); [congruence|].
  cbn.
  destruct (Reply.error (respond w _)) as [e|]; cbn; rewrite ?Hn; cbn.
  - repeat split; intros; congruence.
  - unfold SingleNotePage.isAuthor. cbn. rewrite Hu, Ho, String.eqb_refl.
    repeat split; intros; congruence.
Qed.

Lemma author_save_outcome_witness :
  SingleNotePage.note
    (stateAfter (SingleNotePage.handleSave acceptAll) (viewOfN (Some "V") "T" "c"))
  = Some (mkNote "N" "V" "T" "c" "2024-04-02T00:00:00Z" (Some false) (Some [])).
Proof.
  destruct (author_save_outcome acceptAll (viewOfN (Some "V") "T" "c") "V" noteV
              eq_refl eq_refl eq_refl eq_refl
              ltac:(vm_compute; discriminate) ltac:(vm_compute; discriminate))
    as [_ [_ [Hok _]]].
  destruct (Hok eq_refl) as [Hnote _]. exact Hnote.
Defined.

(** X14: on the new-note route a signed-in user with title and content not
    blank sends one insert with the edited title, content, visibility and
    tags and the user as owner.  The table stores that body, for that user,
    as a row with exactly these values; the page then pushes the route of
    the returned row, or sets the failure message when the backend answers
    with an error.  [isSaving] is off afterwards. *)
Theorem create_save_outcome (w : World) (st : SingleNotePage.State) (u : string) :
  SingleNotePage.user st = Some u ->
  SingleNotePage.isNewNote st = true ->
  JS.trim (SingleNotePage.editedTitle st) <> EmptyString ->
  JS.trim (SingleNotePage.editedContent st) <> EmptyString ->
  let body := [("title", VString (SingleNotePage.editedTitle st));
               ("content", VString (SingleNotePage.editedContent st));
               ("user_id", VString u);
               ("is_public", VBool (SingleNotePage.editedIsPublic st));
               ("tags", VStrings (SingleNotePage.editedTags st))] in
  let r := respond w (InsertReturning body) in
  let st' := stateAfter (SingleNotePage.handleSave w) st in
  requestsOf (effectsOf (SingleNotePage.handleSave w) st) = [InsertReturning body]
  /\ SingleNotePage.isSaving st' = false
  /\ (forall created : Note,
        Reply.error r = None -> Reply.data r = NoteRow created ->
        effectsOf (SingleNotePage.handleSave w) st
        = [Sent (InsertReturning body); Pushed ("/notes/" ++ id created)%string]
        /\ SingleNotePage.error st' = None)
  /\ (Reply.error r <> None ->
      effectsOf (SingleNotePage.handleSave w) st = [Sent (InsertReturning body)]
      /\ SingleNotePage.error st' = Some "Failed to create note")
  /\ (forall (db : Supabase.Db) (uuid clock : string),
        Supabase.insert db (Some u) uuid clock body
        = Some (mkNote uuid u (SingleNotePage.editedTitle st)
                       (SingleNotePage.editedContent st) clock
                       (Some (SingleNotePage.editedIsPublic st))
                       (Some (SingleNotePage.editedTags st)) :: db)).
Proof.
  intros Hu Hnew Ht Hc. cbv zeta.
  unfold effectsOf, stateAfter, SingleNotePage.handleSave, bind, get.
  rewrite Hu, Hnew.
  destruct (JS.trim (SingleNotePage.editedTitle st)); [congruence|].
  destruct (JS.trim (SingleNotePage.editedContent st)); [congruence|].
  cbn -[Supabase.insert].
  split; [|split; [|split; [|split]]].
  - destruct (Reply.error (respond w _)); [reflexivity|].
    destruct (Reply.data (respond w _)); reflexivity.
  - destruct (Reply.error (respond w _)); [reflexivity|].
    destruct (Reply.data (respond w _)); reflexivity.
  - intros created He Hd. rewrite He, Hd. split; reflexivity.
  - intros He. destruct (Reply.error (respond w _)); [|congruence].
    split; reflexivity.
  - intros db uuid clock. unfold Supabase.insert. cbn.
    now rewrite String.eqb_refl.
Qed.

Lemma create_save_outcome_witness :
  requestsOf (effectsOf (SingleNotePage.handleSave acceptAll)
                (viewOfNew (Some "U") "t" "c"))
  = [InsertReturning [("title", VString "t"); ("content", VString "c");
                      ("user_id", VString "U"); ("is_public", VBool false);
                      ("tags", VStrings [])]].
Proof.
  apply (create_save_outcome acceptAll (viewOfNew (Some "U") "t" "c") "U"
           eq_refl eq_refl);
    vm_compute; discriminate.
Defined.

(** X15: the busy flags are released.  A save never leaves [isSaving] on
    when it was off; a delete leaves [isDeleting] on only when the deletion
    went through and the page has pushed the list route. *)
Theorem busy_flags_released (w : World) (st : SingleNotePage.State) :
  (SingleNotePage.isSaving st = false ->
   SingleNotePage.isSaving (stateAfter (SingleNotePage.handleSave w) st) = false)
  /\ (SingleNotePage.isDeleting st = false ->
      SingleNotePage.isDeleting (stateAfter (SingleNotePage.handleDelete w) st) = true ->
      In (Pushed "/notes") (effectsOf (SingleNotePage.handleDelete w) st)).
Proof.
  unfold effectsOf, stateAfter, SingleNotePage.handleSave,
    SingleNotePage.handleDelete, bind, get.
  split.
  - intros Hs.
    destruct (SingleNotePage.user st) as [u|];
      destruct (negb (JS.truthy (JS.trim (SingleNotePage.editedTitle st)))
                || negb (JS.truthy (JS.trim (SingleNotePage.editedContent st))));
      destruct (SingleNotePage.isNewNote st);
      destruct (SingleNotePage.isAuthor st); cbn;
      case_replies; cbn; try reflexivity; exact Hs.
  - intros Hd.
    destruct (SingleNotePage.user st) as [u|];
      destruct (SingleNotePage.note st) as [n|];
      destruct (SingleNotePage.isAuthor st);
      destruct (confirmed w); cbn;
      case_replies; cbn; rewrite ?Hd; intros H;
      try discriminate H; right; left; reflexivity.
Qed.

Lemma busy_flags_released_witness :
  SingleNotePage.isSaving
    (stateAfter (SingleNotePage.handleSave acceptAll) (viewOfN (Some "V") "t" "c"))
  = false
  /\ In (Pushed "/notes")
        (effectsOf (SingleNotePage.handleDelete acceptAll) (viewOfN (Some "V") "t" "c")).
Proof.
  split.
  - apply (proj1 (busy_flags_released acceptAll (viewOfN (Some "V") "t" "c"))).
    reflexivity.
  - apply (proj2 (busy_flags_released acceptAll (viewOfN (Some "V") "t" "c")));
      reflexivity.
Defined.

(** X16: the controls agree with the checks of the handlers.  A viewer who
    is not the author of an existing note gets no mode toggle, save button,
    delete button or editor; and whenever the save button is rendered, a
    save with title and content not blank passes the session and author
    checks and sends exactly one request. *)
Theorem controls_agree_with_handlers (w : World) (st : SingleNotePage.State) :
  (SingleNotePage.isAuthor st = false ->
   SingleNotePage.isNewNote st = false ->
   SingleNoteView.showsModeToggle st = false
   /\ SingleNoteView.showsSaveButton st = false
   /\ SingleNoteView.showsDeleteButton st = false
   /\ SingleNoteView.showsEditor st = false)
  /\ (SingleNoteView.showsSaveButton st = true ->
      JS.trim (SingleNotePage.editedTitle st) <> EmptyString ->
      JS.trim (SingleNotePage.editedContent st) <> EmptyString ->
      List.length (requestsOf (effectsOf (SingleNotePage.handleSave w) st)) = 1).
Proof.
  split.
  - intros Ha Hn.
    unfold SingleNoteView.showsModeToggle, SingleNoteView.showsSaveButton,
      SingleNoteView.showsDeleteButton, SingleNoteView.showsEditor.
    rewrite Ha, Hn, !andb_false_r. repeat split.
  - unfold SingleNoteView.showsSaveButton. intros Hs Ht Hc.
    apply andb_true_iff in Hs. destruct Hs as [_ Ha].
    unfold effectsOf, SingleNotePage.handleSave, bind, get. rewrite Ha.
    unfold SingleNotePage.isAuthor in Ha.
    destruct (SingleNotePage.user st) as [u|]; [|discriminate Ha].
    destruct (JS.trim (SingleNotePage.editedTitle st)); [congruence|].
    destruct (JS.trim (SingleNotePage.editedContent st)); [congruence|].
    destruct (SingleNotePage.isNewNote st); cbn; case_replies; reflexivity.
Qed.

Lemma controls_agree_with_handlers_witness :
  SingleNoteView.showsDeleteButton (viewOfN (Some "U") "t" "c") = false
  /\ List.length (requestsOf (effectsOf (SingleNotePage.handleSave acceptAll)
                                 (viewOfN (Some "V") "t" "c"))) = 1.
Proof.
  split.
  - apply (proj1 (controls_agree_with_handlers acceptAll (viewOfN (Some "U") "t" "c")));
      reflexivity.
  - apply (proj2 (controls_agree_with_handlers acceptAll (viewOfN (Some "V") "t" "c")));
      [reflexivity|vm_compute; discriminate|vm_compute; discriminate].
Defined.

(** X17: when the author deletes the loaded note, a declined confirmation
    leaves everything as it is and sends nothing; a confirmed one sends one
    delete, filtered by the id of the note and the session user, then
    pushes the list route, or, on an error of the backend, sets the failure
    message, releases [isDeleting] and keeps the note. *)
Theorem author_delete_outcome (w : World) (st : SingleNotePage.State)
    (u : string) (n : Note) :
  SingleNotePage.user st = Some u ->
  SingleNotePage.note st = Some n ->
  user_id n = u ->
  let r := respond w (Delete (id n) u) in
  let st' := stateAfter (SingleNotePage.handleDelete w) st in
  (confirmed w = false -> SingleNotePage.handleDelete w st = (tt, st, []))
  /\ (confirmed w = true -> Reply.error r = None ->
      effectsOf (SingleNotePage.handleDelete w) st
      = [Sent (Delete (id n) u); Pushed "/notes"])
  /\ (confirmed w = true -> Reply.error r <> None ->
      effectsOf (SingleNotePage.handleDelete w) st = [Sent (Delete (id n) u)]
      /\ SingleNotePage.error st' = Some "Failed to delete note"
      /\ SingleNotePage.isDeleting st' = false
      /\ SingleNotePage.note st' = Some n).
Proof.
  intros Hu Hn Ho. cbv zeta.
  unfold effectsOf, stateAfter, SingleNotePage.handleDelete, bind, get.
  assert (Ha : SingleNotePage.isAuthor st = true).
  { unfold SingleNotePage.isAuthor. rewrite Hu, Hn, Ho. apply String.eqb_refl. }
  rewrite Hu, Hn, Ha. cbn.
  split; [|split].
  - intros ->. reflexivity.
  - intros -> He. cbn. now rewrite He.
  - intros -> He. cbn.
    destruct (Reply.error (respond w (Delete (id n) u))); [|congruence].
    cbn. rewrite ?Hn. repeat split.
Qed.

Lemma author_delete_outcome_witness :
  effectsOf (SingleNotePage.handleDelete acceptAll) (viewOfN (Some "V") "t" "c")
  = [Sent (Delete "N" "V"); Pushed "/notes"]
  /\ SingleNotePage.handleDelete (mkWorld (Some "V") (respond acceptAll) "now" false "null")
       (viewOfN (Some "V") "t" "c")
     = (tt, viewOfN (Some "V") "t" "c", []).
Proof.
  split.
  - apply (proj1 (proj2 (author_delete_outcome acceptAll
             (viewOfN (Some "V") "t" "c") "V" noteV eq_refl eq_refl eq_refl)));
      reflexivity.
  - apply (proj1 (author_delete_outcome
             (mkWorld (Some "V") (respond acceptAll) "now" false "null")
             (viewOfN (Some "V") "t" "c") "V" noteV eq_refl eq_refl eq_refl)).
    reflexivity.
Defined.

(** ** Tags and the form *)

Lemma isWhiteSpace_lowerChar (c : ascii) :
  JS.isWhiteSpace (JS.lowerChar c) = JS.isWhiteSpace c.
Proof. destruct c as [[] [] [] [] [] [] [] []]; reflexivity. Qed.

Lemma toLowerCase_trimStart (s : string) :
  JS.toLowerCase (JS.trimStart s) = JS.trimStart (JS.toLowerCase s).
Proof.
  induction s as [|c s IH]; simpl; [reflexivity|].
  rewrite isWhiteSpace_lowerChar.
  destruct (JS.isWhiteSpace c); [exact IH|reflexivity].
Qed.

Lemma toLowerCase_trimEnd (s : string) :
  JS.toLowerCase (JS.trimEnd s) = JS.trimEnd (JS.toLowerCase s).
Proof.
  induction s as [|c s IH]; simpl; [reflexivity|].
  rewrite <- IH, isWhiteSpace_lowerChar.
  destruct (JS.trimEnd s); simpl; [|reflexivity].
  destruct (JS.isWhiteSpace c); reflexivity.
Qed.

Lemma trimEnd_idempotent (s : string) :
  JS.trimEnd (JS.trimEnd s) = JS.trimEnd s.
Proof.
  induction s as [|c s IH]; simpl; [reflexivity|].
  destruct (JS.trimEnd s) as [|d t] eqn:E.
  - destruct (JS.isWhiteSpace c) eqn:W; simpl; [reflexivity|].
    now rewrite W.
  - simpl in *. rewrite IH. reflexivity.
Qed.

Lemma trimEnd_head (c : ascii) (s : string) :
  JS.isWhiteSpace c = false ->
  exists t, JS.trimEnd (String c s) = String c t.
Proof.
  intros W. simpl. destruct (JS.trimEnd s) as [|d t].
  - rewrite W. now exists EmptyString.
  - now exists (String d t).
Qed.

Lemma trimStart_head (s : string) :
  JS.trimStart s = EmptyString
  \/ exists c t, JS.trimStart s = String c t /\ JS.isWhiteSpace c = false.
Proof.
  induction s as [|c s IH]; simpl; [now left|].
  destruct (JS.isWhiteSpace c) eqn:W; [exact IH|].
  right. now exists c, s.
Qed.

Lemma trim_idempotent (s : string) : JS.trim (JS.trim s) = JS.trim s.
Proof.
  unfold JS.trim.
  destruct (trimStart_head s) as [E|[c [t [E W]]]]; rewrite E; [reflexivity|].
  destruct (trimEnd_head c t W) as [t' E'].
  rewrite E'. simpl JS.trimStart. rewrite W, <- E'.
  apply trimEnd_idempotent.
Qed.

Lemma normalTag_idempotent (input : string) :
  normalTag (normalTag input) = normalTag input.
Proof.
  unfold normalTag, JS.trim.
  rewrite <- toLowerCase_trimStart, <- toLowerCase_trimEnd.
  rewrite toLowerCase_idempotent. f_equal.
  apply trim_idempotent.
Qed.

Lemma includes_true (l : list string) (x : string) :
  In x l -> JS.includes l x = true.
Proof.
  intros H. apply existsb_exists. exists x. split; [exact H|apply String.eqb_refl].
Qed.

Lemma tagsAfterAdd_form (st : NoteForm.State) :
  NoteForm.tags (NoteForm.note (NoteForm.handleAddTag st))
  = tagsAfterAdd (NoteForm.tagInput st) (NoteForm.tags (NoteForm.note st)).
Proof.
  unfold NoteForm.handleAddTag, tagsAfterAdd, normalTag.
  destruct (JS.truthy _ && negb _); reflexivity.
Qed.

Lemma tagsAfterAdd_single (st : SingleNotePage.State) :
  SingleNotePage.editedTags (stateAfter SingleNotePage.handleAddTag st)
  = tagsAfterAdd (SingleNotePage.tagInput st) (SingleNotePage.editedTags st).
Proof.
  unfold stateAfter, SingleNotePage.handleAddTag, tagsAfterAdd, normalTag, bind, get.
  destruct (JS.truthy _ && negb _); reflexivity.
Qed.

Lemma tagsAfterAdd_again (v1 v2 : string) (l : list string) :
  normalTag v1 = normalTag v2 ->
  tagsAfterAdd v2 (tagsAfterAdd v1 l) = tagsAfterAdd v1 l.
Proof.
  intros E. unfold tagsAfterAdd. rewrite <- E.
  destruct (JS.truthy (normalTag v1)) eqn:T; simpl; [|reflexivity].
  destruct (JS.includes l (normalTag v1)) eqn:I; simpl.
  - now rewrite I.
  - rewrite includes_true; [reflexivity|].
    apply in_app_iff. right. now left.
Qed.

Lemma stateAfter_bind {S A B : Type} (m : Handler S A) (k : A -> Handler S B) (s : S) :
  stateAfter (bind m k) s = stateAfter (k (fst (fst (m s)))) (stateAfter m s).
Proof.
  unfold stateAfter, bind.
  destruct (m s) as [[a s1] o1]. simpl.
  destruct (k a s1) as [[b s2] o2]. reflexivity.
Qed.

(** X18: adding a text whose normal form (trimmed, lower case) was just
    added changes nothing: the tag list after the two additions is the list
    after the first, in the form and in the single-note view. *)
Theorem adding_same_tag_again_is_noop (v1 v2 : string) :
  normalTag v1 = normalTag v2 ->
  (forall st : NoteForm.State,
      NoteForm.tags (NoteForm.note
        (NoteForm.handleAddTag (NoteForm.setTagInput v2
          (NoteForm.handleAddTag (NoteForm.setTagInput v1 st)))))
      = NoteForm.tags (NoteForm.note
          (NoteForm.handleAddTag (NoteForm.setTagInput v1 st))))
  /\ (forall st : SingleNotePage.State,
        let once := stateAfter (bind (typeTag v1) (fun _ => SingleNotePage.handleAddTag)) st in
        SingleNotePage.editedTags
          (stateAfter (bind (typeTag v2) (fun _ => SingleNotePage.handleAddTag)) once)
        = SingleNotePage.editedTags once).
Proof.
  intros E. split.
  - intros st. rewrite !tagsAfterAdd_form.
    set (st1 := NoteForm.handleAddTag (NoteForm.setTagInput v1 st)).
    change (NoteForm.tagInput (NoteForm.setTagInput v2 st1)) with v2.
    change (NoteForm.tags (NoteForm.note (NoteForm.setTagInput v2 st1)))
      with (NoteForm.tags (NoteForm.note st1)).
    unfold st1. rewrite tagsAfterAdd_form.
    change (NoteForm.tagInput (NoteForm.setTagInput v1 st)) with v1.
    now apply tagsAfterAdd_again.
  - intros st once.
    assert (K : forall v s,
               SingleNotePage.editedTags
                 (stateAfter (bind (typeTag v) (fun _ => SingleNotePage.handleAddTag)) s)
               = tagsAfterAdd v (SingleNotePage.editedTags s)).
    { intros v s. rewrite stateAfter_bind. now rewrite tagsAfterAdd_single. }
    unfold once. rewrite !K. now apply tagsAfterAdd_again.
Qed.

Lemma adding_same_tag_again_witness :
  NoteForm.tags (NoteForm.note
    (NoteForm.handleAddTag (NoteForm.setTagInput " work "
      (NoteForm.handleAddTag (NoteForm.setTagInput "Work" (formOf "t" "c"))))))
  = NoteForm.tags (NoteForm.note
      (NoteForm.handleAddTag (NoteForm.setTagInput "Work" (formOf "t" "c")))).
Proof.
  apply (proj1 (adding_same_tag_again_is_noop "Work" " work " eq_refl)).
Defined.

Lemma filter_tag_absent (t : string) (l : list string) :
  ~ In t l -> filter (fun tag => negb (String.eqb tag t)) l = l.
Proof.
  induction l as [|x l IH]; intros H; simpl; [reflexivity|].
  destruct (String.eqb x t) eqn:E.
  - apply String.eqb_eq in E. destruct H. now left.
  - simpl. f_equal. apply IH. intros Hin. apply H. now right.
Qed.

Lemma remove_after_add (input : string) (l : list string) :
  ~ In (normalTag input) l ->
  filter (fun tag => negb (String.eqb tag (normalTag input))) (tagsAfterAdd input l) = l.
Proof.
  intros H. unfold tagsAfterAdd.
  destruct (JS.truthy (normalTag input) && negb (JS.includes l (normalTag input))).
  - rewrite filter_app. simpl. rewrite String.eqb_refl. simpl.
    rewrite app_nil_r. now apply filter_tag_absent.
  - now apply filter_tag_absent.
Qed.

(** X19: removing the tag that the input was just added as gives back the
    tag list from before the addition, when the list did not have the tag;
    and removing a tag that the list does not have changes nothing.  In the
    form and in the single-note view. *)
Theorem add_then_remove_tag_round_trip :
  (forall st : NoteForm.State,
      let l := NoteForm.tags (NoteForm.note st) in
      (~ In (normalTag (NoteForm.tagInput st)) l ->
       NoteForm.tags (NoteForm.note
         (NoteForm.handleRemoveTag (normalTag (NoteForm.tagInput st))
            (NoteForm.handleAddTag st))) = l)
      /\ (forall t, ~ In t l ->
            NoteForm.tags (NoteForm.note (NoteForm.handleRemoveTag t st)) = l))
  /\ (forall st : SingleNotePage.State,
        let l := SingleNotePage.editedTags st in
        (~ In (normalTag (SingleNotePage.tagInput st)) l ->
         SingleNotePage.editedTags
           (stateAfter
              (bind SingleNotePage.handleAddTag (fun _ =>
               SingleNotePage.handleRemoveTag (normalTag (SingleNotePage.tagInput st))))
              st) = l)
        /\ (forall t, ~ In t l ->
              SingleNotePage.editedTags
                (stateAfter (SingleNotePage.handleRemoveTag t) st) = l)).
Proof.
  split.
  - intros st l. split.
    + intros H.
      change (NoteForm.tags (NoteForm.note
                (NoteForm.handleRemoveTag (normalTag (NoteForm.tagInput st))
                   (NoteForm.handleAddTag st))))
        with (filter (fun tag => negb (String.eqb tag (normalTag (NoteForm.tagInput st))))
                (NoteForm.tags (NoteForm.note (NoteForm.handleAddTag st)))).
      rewrite tagsAfterAdd_form. now apply remove_after_add.
    + intros t H. cbn. now apply filter_tag_absent.
  - intros st l. split.
    + intros H. rewrite stateAfter_bind.
      change (SingleNotePage.editedTags
                (stateAfter
                   (SingleNotePage.handleRemoveTag (normalTag (SingleNotePage.tagInput st)))
                   (stateAfter SingleNotePage.handleAddTag st)))
        with (filter (fun tag => negb (String.eqb tag (normalTag (SingleNotePage.tagInput st))))
                (SingleNotePage.editedTags (stateAfter SingleNotePage.handleAddTag st))).
      rewrite tagsAfterAdd_single. now apply remove_after_add.
    + intros t H. cbn. now apply filter_tag_absent.
Qed.

Lemma add_then_remove_tag_witness :
  NoteForm.tags (NoteForm.note
    (NoteForm.handleRemoveTag "work"
       (NoteForm.handleAddTag (NoteForm.setTagInput " Work" (formOf "t" "c")))))
  = ["x"].
Proof.
  apply (proj1 (proj1 add_then_remove_tag_round_trip
                  (NoteForm.setTagInput " Work" (formOf "t" "c")))).
  vm_compute. intuition discriminate.
Defined.

Lemma normalTag_truthy (input : string) :
  JS.truthy (normalTag input) = true -> isNormalTag (normalTag input).
Proof.
  intros T. split; [|apply normalTag_idempotent].
  intros E. rewrite E in T. discriminate T.
Qed.

Lemma tagsAfterAdd_normal (input : string) (l : list string) :
  Forall isNormalTag l -> Forall isNormalTag (tagsAfterAdd input l).
Proof.
  intros H. unfold tagsAfterAdd.
  destruct (JS.truthy (normalTag input)) eqn:T; simpl; [|exact H].
  destruct (negb (JS.includes l (normalTag input))); [|exact H].
  apply Forall_app. split; [exact H|].
  constructor; [now apply normalTag_truthy|constructor].
Qed.

Lemma filter_normal (p : string -> bool) (l : list string) :
  Forall isNormalTag l -> Forall isNormalTag (filter p l).
Proof.
  rewrite !Forall_forall. intros H x Hx. apply filter_In in Hx. now apply H.
Qed.

(** X20: a tag that the add handler appends is its own normal form: not
    empty, without white space at either end, in lower case.  So a tag list
    of normal forms stays one under the add and remove handlers of the form
    and of the single-note view. *)
Theorem tags_stay_normal_forms :
  (forall input : string,
      JS.truthy (normalTag input) = true ->
      normalTag input <> EmptyString
      /\ trimmed (normalTag input)
      /\ JS.toLowerCase (normalTag input) = normalTag input)
  /\ (forall (st : NoteForm.State) (t : string),
        Forall isNormalTag (NoteForm.tags (NoteForm.note st)) ->
        Forall isNormalTag (NoteForm.tags (NoteForm.note (NoteForm.handleAddTag st)))
        /\ Forall isNormalTag
             (NoteForm.tags (NoteForm.note (NoteForm.handleRemoveTag t st))))
  /\ (forall (st : SingleNotePage.State) (t : string),
        Forall isNormalTag (SingleNotePage.editedTags st) ->
        Forall isNormalTag
          (SingleNotePage.editedTags (stateAfter SingleNotePage.handleAddTag st))
        /\ Forall isNormalTag
             (SingleNotePage.editedTags
                (stateAfter (SingleNotePage.handleRemoveTag t) st))).
Proof.
  split; [|split].
  - intros input T. split; [|split].
    + intros E. rewrite E in T. discriminate T.
    + unfold trimmed, normalTag.
      unfold JS.trim at 1.
      rewrite <- toLowerCase_trimStart, <- toLowerCase_trimEnd. f_equal.
      apply trim_idempotent.
    + apply toLowerCase_idempotent.
  - intros st t H. split.
    + rewrite tagsAfterAdd_form. now apply tagsAfterAdd_normal.
    + cbn. now apply filter_normal.
  - intros st t H. split.
    + rewrite tagsAfterAdd_single. now apply tagsAfterAdd_normal.
    + cbn. now apply filter_normal.
Qed.

Lemma tags_stay_normal_forms_witness :
  trimmed (normalTag "  Work  ")
  /\ Forall isNormalTag
       (NoteForm.tags (NoteForm.note
          (NoteForm.handleAddTag (NoteForm.setTagInput "  Work  " (formOf "t" "c"))))).
Proof.
  split.
  - apply (proj1 tags_stay_normal_forms "  Work  " eq_refl).
  - apply (proj1 (proj2 tags_stay_normal_forms)
             (NoteForm.setTagInput "  Work  " (formOf "t" "c")) EmptyString).
    constructor; [|constructor].
    split; [discriminate|reflexivity].
Defined.

(** X21: a form opened on a note and submitted as it is, with title and
    content not blank, hands [onSubmit] the title, content and id of the
    note, with a missing visibility as private and missing tags as none. *)
Theorem form_round_trip (S : Type) (onSubmit : NoteData.t -> Handler S unit)
    (initialData : NoteData.t) (st : NoteForm.State) :
  JS.trim (NoteData.title initialData) <> EmptyString ->
  JS.trim (NoteData.content initialData) <> EmptyString ->
  NoteForm.handleSubmit onSubmit initialData (NoteForm.onInitialData initialData st)
  = onSubmit (NoteData.mk (NoteData.title initialData)
                          (NoteData.content initialData)
                          (NoteData.id initialData)
                          (Some (JS.orDefault (NoteData.is_public initialData) false))
                          (Some (JS.orDefault (NoteData.tags initialData) []))).
Proof.
  intros Ht Hc. unfold NoteForm.handleSubmit, NoteForm.onInitialData.
  cbn -[JS.trim].
  destruct (JS.trim (NoteData.title initialData)); [congruence|].
  destruct (JS.trim (NoteData.content initialData)); [congruence|].
  reflexivity.
Qed.

Lemma form_round_trip_witness :
  NoteForm.handleSubmit (NotesPage.handleUpdateNote acceptAll) (noteDataOf noteA)
    (NoteForm.onInitialData (noteDataOf noteA) (formOf "x" "y"))
  = NotesPage.handleUpdateNote acceptAll
      (NoteData.mk "a" "text" (Some "A") (Some false) (Some [])).
Proof.
  apply (form_round_trip NotesPage.State (NotesPage.handleUpdateNote acceptAll)
           (noteDataOf noteA) (formOf "x" "y"));
    vm_compute; discriminate.
Defined.

(** ** The table under the policies *)





Lemma selected_spec (uid : option string) (i u : string) (r : Note) :
  SupabaseWrites.selected uid i u r = true
  <-> uid = Some (user_id r) /\ id r = i /\ user_id r = u.
Proof.
  unfold SupabaseWrites.selected, Supabase.own_row.
  rewrite !andb_true_iff, !String.eqb_eq.
  destruct uid as [v|].
  - rewrite String.eqb_eq. split.
    + intros [[-> Hi] Hu]. auto.
    + intros [[= ->] [Hi Hu]]. auto.
  - split; [intros [[H _] _]; discriminate H|intros [H _]; discriminate H].
Qed.

Lemma delete_unselected (db : Supabase.Db) (uid : option string) (i u : string) :
  (forall r, In r db -> SupabaseWrites.selected uid i u r = false) ->
  SupabaseWrites.delete db uid i u = db.
Proof.
  unfold SupabaseWrites.delete.
  induction db as [|x db IH]; intros H; simpl; [reflexivity|].
  rewrite (H x (or_introl eq_refl)). simpl. f_equal.
  apply IH. intros r Hr. apply H. now right.
Qed.

Lemma update_unselected (db : Supabase.Db) (uid : option string) (body : Obj)
    (i u : string) :
  (forall r, In r db -> SupabaseWrites.selected uid i u r = false) ->
  SupabaseWrites.update db uid body i u = Some db.
Proof.
  induction db as [|x db IH]; intros H; simpl; [reflexivity|].
  rewrite IH by (intros r Hr; apply H; now right).
  now rewrite (H x (or_introl eq_refl)).
Qed.

Lemma foreign_not_selected (db : Supabase.Db) (u i : string) :
  (forall r, In r db -> id r = i -> user_id r <> u) ->
  forall r, In r db -> SupabaseWrites.selected (Some u) i u r = false.
Proof.
  intros H r Hr.
  destruct (SupabaseWrites.selected (Some u) i u r) eqn:E; [|reflexivity].
  apply selected_spec in E. destruct E as [_ [Hi Hu]].
  destruct (H r Hr Hi Hu).
Qed.

(** X24: the update and the delete that the list view sends for a note of
    another user leave the table as it is: the filter on [user_id] and the
    policies select no row. *)
Theorem foreign_writes_change_nothing (w : World) (st : NotesPage.State)
    (u i : string) (d : NoteData.t) (db : Supabase.Db) (uuid clock : string) :
  NotesPage.user st = Some u ->
  NoteData.id d = Some i ->
  (forall r, In r db -> id r = i -> user_id r <> u) ->
  SupabaseWrites.executeAll (Some u) uuid clock db
    (requestsOf (effectsOf (NotesPage.handleDeleteNote w i) st)) = Some db
  /\ SupabaseWrites.executeAll (Some u) uuid clock db
       (requestsOf (effectsOf (NotesPage.handleUpdateNote w d) st)) = Some db.
Proof.
  intros Hu Hd Hforeign.
  assert (Hsel := foreign_not_selected db u i Hforeign).
  unfold effectsOf, NotesPage.handleDeleteNote, NotesPage.handleUpdateNote, bind, get.
  rewrite Hu, Hd. split.
  - cbn. case_replies; cbn; now rewrite delete_unselected.
  - destruct i as [|a i']; [reflexivity|]. cbn -[SupabaseWrites.update].
    case_replies; cbn -[SupabaseWrites.update];
      now rewrite update_unselected.
Qed.

Lemma foreign_writes_change_nothing_witness :
  SupabaseWrites.executeAll (Some "U") "id1" "now" [noteA; noteV]
    (requestsOf (effectsOf (NotesPage.handleDeleteNote acceptAll "N") listOfU))
  = Some [noteA; noteV].
Proof.
  apply (proj1 (foreign_writes_change_nothing acceptAll listOfU "U" "N"
                  (NoteData.mk "t" "c" (Some "N") None None) [noteA; noteV]
                  "id1" "now" eq_refl eq_refl
                  ltac:(intros r [<-|[<-|[]]]; vm_compute; intros E;
                        [discriminate E|discriminate]))).
Defined.

Lemma patched_identity (body : Obj) (r r' : Note) :
  lookup "id" body = None -> lookup "user_id" body = None ->
  lookup "created_at" body = None ->
  SupabaseWrites.patched body r = Some r' ->
  id r' = id r /\ user_id r' = user_id r /\ created_at r' = created_at r.
Proof.
  intros Hi Hu Hc. unfold SupabaseWrites.patched, SupabaseWrites.set_text.
  rewrite Hi, Hu, Hc.
  destruct (lookup "title" body) as [[t| |]|]; try discriminate;
    destruct (lookup "content" body) as [[c| |]|]; try discriminate;
    destruct (SupabaseWrites.set_is_public body (is_public r)); try discriminate;
    destruct (SupabaseWrites.set_tags body (tags r)); try discriminate;
    intros [= <-]; repeat split.
Qed.

(** X25: a delete removes exactly the requester's own rows with the id
    asked for.  An update that succeeds keeps the number of rows and every
    row that is not the requester's own or has another id; and with a body
    that sets none of [id], [user_id] and [created_at], as the bodies of
    the pages are, every row keeps its id, its owner and its creation
    time. *)
Theorem writes_touch_only_own_rows
    (db : Supabase.Db) (uid : option string) (body : Obj) (i u : string) :
  (forall r : Note,
      In r (SupabaseWrites.delete db uid i u)
      <-> In r db /\ ~ (uid = Some (user_id r) /\ id r = i /\ user_id r = u))
  /\ (forall db' : Supabase.Db,
        SupabaseWrites.update db uid body i u = Some db' ->
        List.length db' = List.length db
        /\ (forall r, In r db -> uid <> Some (user_id r) \/ id r <> i -> In r db')
        /\ (lookup "id" body = None -> lookup "user_id" body = None ->
            lookup "created_at" body = None ->
            map id db' = map id db /\ map user_id db' = map user_id db
            /\ map created_at db' = map created_at db)).
Proof.
  split.
  - intros r. unfold SupabaseWrites.delete. rewrite filter_In, negb_true_iff.
    rewrite <- selected_spec.
    destruct (SupabaseWrites.selected uid i u r); split; intros [H1 H2];
      split; try assumption; congruence.
  - induction db as [|x db IH]; intros db' H; simpl in H.
    + injection H as <-. repeat split. intros r [].
    + destruct (SupabaseWrites.update db uid body i u) as [rest|] eqn:U;
        [|discriminate H].
      destruct (IH rest eq_refl) as [Hlen [Hkeep Hid]].
      destruct (SupabaseWrites.selected uid i u x) eqn:S.
      * destruct (SupabaseWrites.patched body x) as [x'|] eqn:P; [|discriminate H].
        destruct (Supabase.own_row uid x'); [|discriminate H].
        injection H as <-. apply selected_spec in S. destruct S as [So [Si Su]].
        split; [simpl; now rewrite Hlen|]. split.
        -- intros r [<-|Hr] Hor; [|right; now apply Hkeep].
           destruct Hor as [Ho|Ho]; contradiction.
        -- intros Hi Hu Hc.
           destruct (patched_identity body x x' Hi Hu Hc P) as [E1 [E2 E3]].
           destruct (Hid Hi Hu Hc) as [M1 [M2 M3]].
           simpl. now rewrite E1, E2, E3, M1, M2, M3.
      * injection H as <-.
        split; [simpl; now rewrite Hlen|]. split.
        -- intros r [<-|Hr] Hor; [now left|right; now apply Hkeep].
        -- intros Hi Hu Hc. destruct (Hid Hi Hu Hc) as [M1 [M2 M3]].
           simpl. now rewrite M1, M2, M3.
Qed.

Lemma writes_touch_only_own_rows_witness :
  map id [mkNote "A" "U" "T" "text" "2024-04-03T00:00:00Z" (Some true) (Some []); noteV]
  = map id [noteA; noteV].
Proof.
  apply (proj2 (writes_touch_only_own_rows [noteA; noteV] (Some "U")
                  [("title", VString "T"); ("is_public", VBool true)] "A" "U")
               [mkNote "A" "U" "T" "text" "2024-04-03T00:00:00Z" (Some true) (Some []);
                noteV]
               eq_refl);
    reflexivity.
Defined.

(** ** The first renders of the list view *)

(** X26: without a session the list view pushes the sign-in route, sends
    nothing and keeps its initial state; with a session it sends the one
    select of the user's notes and then holds that user, is no longer
    loading, and lists the rows of the answer, or nothing and the failure
    message when the backend answers with an error. *)
Theorem list_mount_outcome (w : World) :
  let st' := stateAfter (listMount w) listInitial in
  (session w = None ->
   listMount w listInitial = (tt, listInitial, [Pushed "/sign-in"]))
  /\ (forall u : string, session w = Some u ->
        let r := respond w (SelectOwned u) in
        effectsOf (listMount w) listInitial = [Sent (SelectOwned u)]
        /\ NotesPage.user st' = Some u
        /\ NotesPage.isLoading st' = false
        /\ (Reply.error r = None ->
            NotesPage.error st' = None
            /\ NotesPage.notes st'
               = match Reply.data r with NoteRows l => l | _ => [] end)
        /\ (Reply.error r <> None ->
            NotesPage.notes st' = []
            /\ NotesPage.error st' = Some "Failed to load notes. Please try again.")).
Proof.
  cbv zeta.
  unfold effectsOf, stateAfter, listMount, NotesPage.getUser,
    NotesPage.fetchNotes, bind, get.
  split.
  - intros ->. reflexivity.
  - intros u ->. cbn.
    destruct (Reply.error (respond w (SelectOwned u))); cbn;
      repeat split; intros; congruence.
Qed.

Lemma list_mount_outcome_witness :
  effectsOf (listMount acceptAll) listInitial = [Sent (SelectOwned "U")]
  /\ listMount (mkWorld None (respond acceptAll) "now" true "null") listInitial
     = (tt, listInitial, [Pushed "/sign-in"]).
Proof.
  split.
  - apply (proj2 (list_mount_outcome acceptAll) "U" eq_refl).
  - apply (proj1 (list_mount_outcome
                    (mkWorld None (respond acceptAll) "now" true "null"))).
    reflexivity.
Defined.
